(** * todo-web backend: task CRUD handlers, event emission, auth dependencies

    A shallow embedding of

    - [backend/app/routers/tasks.py]   (create / update / toggle / delete and
      the event-emission policy wrapped around them),
    - [backend/app/dependencies.py]    ([get_current_user] and the
      development-only [get_dev_or_current_user]),
    - the CHECK constraints that migration [004_phase5_event_driven.py]
      puts on [recurrence_patterns],

    followed by the properties stated about them.

    Conventions of the embedding.
    - A request handler is a computation in the monad [M]: it threads a
      [World] (database, clock, publisher state, record of publish calls,
      log) and either returns a value or raises a Python exception.
    - A Python [datetime] is its wall-clock reading in microseconds
      together with its UTC offset when it is timezone-aware; what
      [datetime.utcnow()] returns and what a TIMESTAMP column holds is
      naive and is given by its reading alone ([timestamp]).
    - The content of a JSONB document is a [json] tree; numbers are
      integers.
    - [!=] is Python's: a naive and an aware datetime are never equal, and
      [True] and [1], and [False] and [0], are equal, also inside lists
      and dictionaries.
    - A [Task] is modelled by the values of its columns.  The handlers
      read an attribute either before they assign it or after
      [session.refresh], so what they see is always what the column
      holds; writing a JSONB document and reading it back is the
      identity. *)

From stdpp Require Import gmap strings list fin_maps pretty sorting.

Set Warnings "-register-all".
Open Scope Z_scope.

(** ** Values *)

Inductive json :=
  | JNull
  | JBool (b : bool)
  | JNum (n : Z)
  | JStr (s : string)
  | JArr (l : list json)
  | JObj (m : gmap string json).

Fixpoint json_eq_dec (a b : json) : Decision (a = b).
Proof.
  refine (match a, b with
          | JNull, JNull => left eq_refl
          | JBool x, JBool y => cast_if (decide (x = y))
          | JNum x, JNum y => cast_if (decide (x = y))
          | JStr x, JStr y => cast_if (decide (x = y))
          | JArr x, JArr y => cast_if (@list_eq_dec _ json_eq_dec x y)
          | JObj x, JObj y => cast_if (@gmap_eq_dec _ _ _ _ json_eq_dec x y)
          | _, _ => right _
          end); abstract congruence.
Defined.

#[global] Instance json_eqdec : EqDecision json := json_eq_dec.

(** [Dict[str, Any]] *)
Abbreviation dict := (gmap string json).

(** A naive datetime -- what [datetime.utcnow()] returns and what a
    TIMESTAMP column holds -- given by its reading in microseconds. *)
Abbreviation timestamp := Z.

(** A Python [datetime]: the wall-clock reading and, for a timezone-aware
    value, the UTC offset (both in microseconds).  pydantic parses
    "2026-03-01T09:00:00" into a naive value and "2026-03-01T09:00:00Z" or
    "...+02:00" into an aware one. *)
Record datetime := mkDatetime {
  wall : timestamp;
  utcoffset : option Z
}.

#[global] Instance datetime_eqdec : EqDecision datetime.
Proof. solve_decision. Defined.

Definition naive (t : timestamp) : datetime := mkDatetime t None.

(** [a == b] on datetimes: two naive values are compared by their
    readings, two aware values by their instants, and a naive and an aware
    value are never equal. *)
Definition datetime_eq (a b : datetime) : bool :=
  match utcoffset a, utcoffset b with
  | None, None => bool_decide (wall a = wall b)
  | Some oa, Some ob => bool_decide (wall a - oa = wall b - ob)
  | _, _ => false
  end.

(** What a TIMESTAMP (without time zone) column holds after a
    timezone-aware datetime with the given reading and UTC offset has been
    written to it.  The driver and the database decide (PostgreSQL
    converts to the time zone of the session, SQLite keeps the reading),
    so the conversion is a parameter of the embedding. *)
Class TimestampColumn := timestamp_of_aware : timestamp → Z → timestamp.

(** The column value of a datetime: a naive value is stored as it is. *)
Definition column_reading {column : TimestampColumn} (d : datetime) : timestamp :=
  match utcoffset d with
  | None => wall d
  | Some offset => timestamp_of_aware (wall d) offset
  end.

(** A representative of a JSON value up to Python's [==]: [True] and [1],
    and [False] and [0], are the same number, also inside lists and
    dictionaries. *)
Fixpoint canon (v : json) : json :=
  match v with
  | JNull => JNull
  | JBool b => JNum (if b then 1 else 0)
  | JNum n => JNum n
  | JStr s => JStr s
  | JArr l => JArr (canon <$> l)
  | JObj m => JObj (canon <$> m)
  end.

(** [a == b] on JSON values *)
Definition json_eq (a b : json) : bool := bool_decide (canon a = canon b).

(** Python truthiness of a JSON value ([not v] is its negation). *)
Definition json_truthy (v : json) : bool :=
  match v with
  | JNull => false
  | JBool b => b
  | JNum n => bool_decide (n ≠ 0)
  | JStr s => bool_decide (s ≠ "")
  | JArr l => bool_decide (l ≠ [])
  | JObj m => bool_decide (m ≠ ∅)
  end.

(** The values an attribute of a [Task] object, or an entry of the
    [changes] / [previous_values] dictionaries, can hold. *)
Inductive value :=
  | VNone
  | VBool (b : bool)
  | VInt (n : Z)
  | VStr (s : string)
  | VDateTime (t : datetime)
  | VDict (d : dict).

#[global] Instance value_eqdec : EqDecision value.
Proof. solve_decision. Defined.

Definition truthy (v : value) : bool :=
  match v with
  | VNone => false
  | VBool b => b
  | VInt n => bool_decide (n ≠ 0)
  | VStr s => bool_decide (s ≠ "")
  | VDateTime _ => true
  | VDict d => bool_decide (d ≠ ∅)
  end.

(** [a == b] and [a != b] as Python evaluates them on these values. *)
Definition py_eq (a b : value) : bool :=
  match a, b with
  | VNone, VNone => true
  | VBool x, VBool y => bool_decide (x = y)
  | VInt x, VInt y => bool_decide (x = y)
  | VBool x, VInt y | VInt y, VBool x => bool_decide (y = if x then 1 else 0)
  | VStr x, VStr y => bool_decide (x = y)
  | VDateTime x, VDateTime y => datetime_eq x y
  | VDict x, VDict y => json_eq (JObj x) (JObj y)
  | _, _ => false
  end.

Definition py_ne (a b : value) : bool := negb (py_eq a b).

Definition of_str (o : option string) : value :=
  match o with Some s => VStr s | None => VNone end.
Definition of_datetime (o : option datetime) : value :=
  match o with Some t => VDateTime t | None => VNone end.
Definition of_dict (o : option dict) : value :=
  match o with Some d => VDict d | None => VNone end.

(** ** models.py *)

Record User := mkUser {
  u_id : Z;
  u_email : string;
  u_hashed_password : string;
  u_created_at : timestamp
}.

(** [class Task(SQLModel, table=True)].  [title], [description] and
    [priority] are declared non-optional, but [setattr] does not validate,
    so the in-memory object can hold [None] there until [commit] refuses
    the row; hence the [option]. *)
Record Task := mkTask {
  id : Z;
  user_id : Z;
  title : option string;
  description : option string;
  priority : option string;
  is_complete : bool;
  created_at : timestamp;
  updated_at : timestamp;
  reminder_time : option timestamp;
  reminder_config : option dict
}.

#[global] Instance User_eqdec : EqDecision User.
Proof. solve_decision. Defined.
#[global] Instance Task_eqdec : EqDecision Task.
Proof. solve_decision. Defined.

Definition set_title (x : option string) (t : Task) : Task :=
  mkTask (id t) (user_id t) x (description t) (priority t) (is_complete t)
         (created_at t) (updated_at t) (reminder_time t) (reminder_config t).
Definition set_description (x : option string) (t : Task) : Task :=
  mkTask (id t) (user_id t) (title t) x (priority t) (is_complete t)
         (created_at t) (updated_at t) (reminder_time t) (reminder_config t).
Definition set_priority (x : option string) (t : Task) : Task :=
  mkTask (id t) (user_id t) (title t) (description t) x (is_complete t)
         (created_at t) (updated_at t) (reminder_time t) (reminder_config t).
Definition set_is_complete (x : bool) (t : Task) : Task :=
  mkTask (id t) (user_id t) (title t) (description t) (priority t) x
         (created_at t) (updated_at t) (reminder_time t) (reminder_config t).
Definition set_updated_at (x : timestamp) (t : Task) : Task :=
  mkTask (id t) (user_id t) (title t) (description t) (priority t)
         (is_complete t) (created_at t) x (reminder_time t) (reminder_config t).
Definition set_reminder_time (x : option timestamp) (t : Task) : Task :=
  mkTask (id t) (user_id t) (title t) (description t) (priority t)
         (is_complete t) (created_at t) (updated_at t) x (reminder_config t).
Definition set_reminder_config (x : option dict) (t : Task) : Task :=
  mkTask (id t) (user_id t) (title t) (description t) (priority t)
         (is_complete t) (created_at t) (updated_at t) (reminder_time t) x.

(** The columns of the [tasks] row that the handlers read or write. *)
Definition task_columns : list string :=
  ["id"; "user_id"; "title"; "description"; "priority"; "is_complete";
   "created_at"; "updated_at"; "reminder_time"; "reminder_config"].

(** [getattr(task, key, None)] *)
Definition getattr (t : Task) (key : string) : value :=
  if String.eqb key "id" then VInt (id t)
  else if String.eqb key "user_id" then VInt (user_id t)
  else if String.eqb key "title" then of_str (title t)
  else if String.eqb key "description" then of_str (description t)
  else if String.eqb key "priority" then of_str (priority t)
  else if String.eqb key "is_complete" then VBool (is_complete t)
  else if String.eqb key "created_at" then VDateTime (naive (created_at t))
  else if String.eqb key "updated_at" then VDateTime (naive (updated_at t))
  else if String.eqb key "reminder_time" then of_datetime (naive <$> reminder_time t)
  else if String.eqb key "reminder_config" then of_dict (reminder_config t)
  else VNone.

(** [setattr(task, key, value)] for the keys a [TaskUpdate] can carry, as
    the attribute reads once the row has been committed and refreshed,
    which every handler does before it reads the attribute again: a
    datetime assigned to [reminder_time] lands in a TIMESTAMP column.  The
    schema fixes the type of the value sent under each key ([str],
    [datetime], [dict], or [None]); other combinations do not occur and
    leave the object as it is. *)
Definition setattr {column : TimestampColumn} (t : Task) (key : string) (v : value)
  : Task :=
  if String.eqb key "title" then
    match v with VStr s => set_title (Some s) t | VNone => set_title None t | _ => t end
  else if String.eqb key "description" then
    match v with
    | VStr s => set_description (Some s) t
    | VNone => set_description None t
    | _ => t
    end
  else if String.eqb key "priority" then
    match v with
    | VStr s => set_priority (Some s) t
    | VNone => set_priority None t
    | _ => t
    end
  else if String.eqb key "reminder_time" then
    match v with
    | VDateTime d => set_reminder_time (Some (column_reading d)) t
    | VNone => set_reminder_time None t
    | _ => t
    end
  else if String.eqb key "reminder_config" then
    match v with
    | VDict d => set_reminder_config (Some d) t
    | VNone => set_reminder_config None t
    | _ => t
    end
  else t.

(** ** schemas.py *)

(** [TaskCreate], after pydantic has applied the defaults. *)
Record TaskCreate := mkTaskCreate {
  c_title : string;
  c_description : string;
  c_priority : string;
  c_reminder_time : option datetime;
  c_reminder_config : option dict
}.

(** [TaskUpdate].  Every field is [Optional[...] = None]; the outer option
    records whether the client sent the field at all ([None] = unset), the
    inner one whether it sent [null]. *)
Record TaskUpdate := mkTaskUpdate {
  up_title : option (option string);
  up_description : option (option string);
  up_priority : option (option string);
  up_reminder_time : option (option datetime);
  up_reminder_config : option (option dict)
}.

Definition dump_field {A} (key : string) (inj : A → value) (o : option A)
  : list (string * value) :=
  match o with Some x => [(key, inj x)] | None => [] end.

(** [task_data.model_dump(exclude_unset=True)]: the fields that were sent,
    in declaration order. *)
Definition model_dump_exclude_unset (d : TaskUpdate) : list (string * value) :=
  dump_field "title" of_str (up_title d) ++
  dump_field "description" of_str (up_description d) ++
  dump_field "priority" of_str (up_priority d) ++
  dump_field "reminder_time" of_datetime (up_reminder_time d) ++
  dump_field "reminder_config" of_dict (up_reminder_config d).

(** ** app/events: event payloads and the publisher interface *)

(** Modelled from the spec: the payload and envelope classes of
    [app/events/schemas.py] are not among the sources.  Following §4.1 an
    event is a tagged payload together with its [source] and [subject];
    a payload built with all its fields is well-formed, and
    [notification_channels] carries whatever JSON value it was given.  The
    generated envelope id and timestamp are left out. *)
Record TaskCreatedData := mkTaskCreatedData {
  tc_task_id : Z;
  tc_user_id : Z;
  tc_title : option string;
  tc_description : option string;
  tc_priority : option string
}.

Record TaskUpdatedData := mkTaskUpdatedData {
  tu_task_id : Z;
  tu_user_id : Z;
  tu_changes : gmap string value;
  tu_previous_values : gmap string value
}.

Record TaskDeletedData := mkTaskDeletedData {
  td_task_id : Z;
  td_user_id : Z;
  td_title : option string;
  td_was_complete : bool
}.

Record TaskReminderScheduledData := mkTaskReminderScheduledData {
  rs_task_id : Z;
  rs_user_id : Z;
  rs_scheduled_time : timestamp;
  rs_notification_channels : json
}.

Record ReminderCancelledData := mkReminderCancelledData {
  rc_task_id : Z;
  rc_user_id : Z;
  rc_reason : string;
  rc_cancelled_at : timestamp
}.

Inductive Event :=
  | TaskCreatedEvent (source subject : string) (data : TaskCreatedData)
  | TaskUpdatedEvent (source subject : string) (data : TaskUpdatedData)
  | TaskDeletedEvent (source subject : string) (data : TaskDeletedData)
  | TaskReminderScheduledEvent (source subject : string)
                               (data : TaskReminderScheduledData)
  | ReminderCancelledEvent (source subject : string)
                           (data : ReminderCancelledData).

(** What a call of a publisher method does: return, or raise an
    [Exception] carrying a message. *)
Inductive Outcome :=
  | Returned
  | Raised (msg : string).

(** Modelled from the spec: [app/events/publisher.py] is not among the
    sources.  Following §4.2 the publisher is an object with its own state
    whose methods either return or raise; nothing else is assumed, so a
    publisher may fail on any call, depending on the event and on its
    history. *)
Record EventPublisher (PS : Type) := mkEventPublisher {
  publish_task_event : Event → PS → Outcome * PS;
  publish_reminder_event : Event → PS → Outcome * PS
}.
Arguments mkEventPublisher {PS} _ _.
Arguments publish_task_event {PS} _ _ _.
Arguments publish_reminder_event {PS} _ _ _.

(** ** The world a request runs in *)

Record Db := mkDb {
  tasks : gmap Z Task;
  users : gmap Z User;
  task_seq : Z;
  user_seq : Z
}.

Inductive LogLine :=
  | LogInfo (msg : string)
  | LogError (msg : string).

Record World (PS : Type) := mkWorld {
  db : Db;
  clock : timestamp;
  pub_state : PS;
  sent : list (Event * Outcome);
  log : list LogLine
}.
Arguments mkWorld {PS} _ _ _ _ _.
Arguments db {PS} _.
Arguments clock {PS} _.
Arguments pub_state {PS} _.
Arguments sent {PS} _.
Arguments log {PS} _.

Inductive Exn :=
  | HTTPException (status_code : Z) (detail : string)
  | IntegrityError
  | PublishError (msg : string).

Inductive Result (A : Type) :=
  | Ok (a : A)
  | Raise (e : Exn).
Arguments Ok {A} _.
Arguments Raise {A} _.

#[global] Instance Exn_eqdec : EqDecision Exn.
Proof. solve_decision. Defined.

Definition exn_message (e : Exn) : string :=
  match e with
  | HTTPException _ d => d
  | IntegrityError => "IntegrityError"
  | PublishError m => m
  end.

(** ** HTTP responses *)

Inductive Body :=
  | BodyTask (t : Task)
  | BodyEmpty
  | BodyDetail (detail : string)
  | BodyInternalServerError.

Record Response := mkResponse {
  status : Z;
  body : Body
}.

(** What the framework sends back: the route's status code and the rendered
    return value, the status and detail of an [HTTPException], and 500 for
    any other exception that leaves the handler. *)
Definition respond {A} (success : Z) (render : A → Body) (r : Result A) : Response :=
  match r with
  | Ok a => mkResponse success (render a)
  | Raise (HTTPException code detail) => mkResponse code (BodyDetail detail)
  | Raise _ => mkResponse 500 BodyInternalServerError
  end.

Definition HTTP_200_OK : Z := 200.
Definition HTTP_201_CREATED : Z := 201.
Definition HTTP_204_NO_CONTENT : Z := 204.
Definition HTTP_401_UNAUTHORIZED : Z := 401.
Definition HTTP_403_FORBIDDEN : Z := 403.
Definition HTTP_404_NOT_FOUND : Z := 404.

(** ** The request monad *)

Section Handlers.

Context {PS : Type} {column : TimestampColumn}.
Variable publisher : EventPublisher PS.

Definition M (A : Type) : Type := World PS → Result A * World PS.

#[local] Instance M_ret : MRet M := λ A (a : A) w, (Ok a, w).
#[local] Instance M_bind : MBind M := λ A B (f : A → M B) (m : M A) w,
  match m w with
  | (Ok a, w') => f a w'
  | (Raise e, w') => (Raise e, w')
  end.

(** [raise e] *)
Definition raise {A} (e : Exn) : M A := λ w, (Raise e, w).

(** [try: body  except Exception as e: handler(e)] *)
Definition try_except (body : M unit) (handler : Exn → M unit) : M unit := λ w,
  match body w with
  | (Ok x, w') => (Ok x, w')
  | (Raise e, w') => handler e w'
  end.

(** [datetime.utcnow()]: reads the clock, which then moves on. *)
Definition utcnow : M timestamp := λ w,
  (Ok (clock w), mkWorld (db w) (clock w + 1) (pub_state w) (sent w) (log w)).

Definition logger_info (msg : string) : M unit := λ w,
  (Ok (), mkWorld (db w) (clock w) (pub_state w) (sent w) (log w ++ [LogInfo msg])).

Definition logger_error (msg : string) : M unit := λ w,
  (Ok (), mkWorld (db w) (clock w) (pub_state w) (sent w) (log w ++ [LogError msg])).

(** [await publisher.<method>(event)]: the call is recorded in [sent]
    together with its outcome; a raising call raises here. *)
Definition await_publish (method : Event → PS → Outcome * PS) (event : Event)
  : M unit := λ w,
  let '(o, ps) := method event (pub_state w) in
  let w' := mkWorld (db w) (clock w) ps (sent w ++ [(event, o)]) (log w) in
  match o with
  | Returned => (Ok (), w')
  | Raised msg => (Raise (PublishError msg), w')
  end.

(** *** The session *)

Definition with_tasks (f : gmap Z Task → gmap Z Task) (d : Db) : Db :=
  mkDb (f (tasks d)) (users d) (task_seq d) (user_seq d).

(** The NOT NULL columns of [tasks] that a request can write. *)
Definition not_null_ok (t : Task) : bool :=
  bool_decide (is_Some (title t)) && bool_decide (is_Some (description t))
  && bool_decide (is_Some (priority t)).

(** [session.get(Task, task_id)] *)
Definition session_get_task (task_id : Z) : M (option Task) := λ w,
  (Ok (tasks (db w) !! task_id), w).

(** [session.add(task); session.commit(); session.refresh(task)] for an
    object loaded from the session: the row is rewritten, unless a NOT NULL
    column holds [None], in which case the commit raises and the database
    keeps its content. *)
Definition session_commit_task (task : Task) : M Task := λ w,
  if not_null_ok task then
    (Ok task, mkWorld (with_tasks (insert (id task) task) (db w))
                      (clock w) (pub_state w) (sent w) (log w))
  else (Raise IntegrityError, w).

(** The same for a new object: the database assigns the next id. *)
Definition session_commit_new_task (make : Z → Task) : M Task := λ w,
  let task := make (task_seq (db w)) in
  if not_null_ok task then
    (Ok task, mkWorld (mkDb (<[id task := task]> (tasks (db w))) (users (db w))
                            (task_seq (db w) + 1) (user_seq (db w)))
                      (clock w) (pub_state w) (sent w) (log w))
  else (Raise IntegrityError, w).

(** [session.delete(task); session.commit()] *)
Definition session_delete_task (task : Task) : M unit := λ w,
  (Ok (), mkWorld (with_tasks (delete (id task)) (db w))
                  (clock w) (pub_state w) (sent w) (log w)).

(** *** routers/tasks.py *)

Definition email_only : json := JArr [JStr "email"].

Definition _get_notification_channels (reminder_config : option dict) : json :=
  if negb (truthy (of_dict reminder_config)) then email_only
  else match reminder_config with
       | Some d => default email_only (d !! "channels")
       | None => email_only
       end.

Definition subject_of (task_id : Z) : string := "task/" +:+ pretty task_id.

Definition create_task (task_data : TaskCreate) (current_user : User) : M Task :=
  created ← utcnow;
  updated ← utcnow;
  task ← session_commit_new_task (λ new_id,
    mkTask new_id (u_id current_user) (Some (c_title task_data))
           (Some (c_description task_data)) (Some (c_priority task_data))
           false created updated
           (column_reading <$> c_reminder_time task_data)
           (c_reminder_config task_data));
  try_except
    (let event := TaskCreatedEvent "/api/tasks" (subject_of (id task))
                    (mkTaskCreatedData (id task) (user_id task) (title task)
                                       (description task) (priority task)) in
     await_publish (publish_task_event publisher) event;;
     logger_info ("Published task.created event for task " +:+ pretty (id task)))
    (λ e, logger_error ("Failed to publish task.created event for task "
                        +:+ pretty (id task) +:+ ": " +:+ exn_message e));;
  match reminder_time task with
  | Some scheduled =>
    try_except
      (let reminder_event :=
         TaskReminderScheduledEvent "/api/tasks" (subject_of (id task))
           (mkTaskReminderScheduledData (id task) (user_id task) scheduled
              (_get_notification_channels (reminder_config task))) in
       await_publish (publish_reminder_event publisher) reminder_event;;
       logger_info ("Published reminder.scheduled event for task "
                    +:+ pretty (id task)))
      (λ e, logger_error ("Failed to publish reminder.scheduled event for task "
                          +:+ pretty (id task) +:+ ": " +:+ exn_message e))
  | None => mret ()
  end;;
  mret task.

(** The body of [for key, value in update_data.items()]. *)
Definition diff_step (acc : Task * gmap string value * gmap string value)
    (item : string * value) : Task * gmap string value * gmap string value :=
  let '(task, changes, previous_values) := acc in
  let '(key, value) := item in
  let old_value := getattr task key in
  if py_ne old_value value then
    (setattr task key value, <[key := value]> changes,
     <[key := old_value]> previous_values)
  else acc.

Definition diff_loop (update_data : list (string * value)) (task : Task)
  : Task * gmap string value * gmap string value :=
  foldl diff_step (task, ∅, ∅) update_data.

Definition update_task (task_id : Z) (task_data : TaskUpdate) (current_user : User)
  : M Task :=
  found ← session_get_task task_id;
  match found with
  | None => raise (HTTPException HTTP_404_NOT_FOUND "Task not found")
  | Some task =>
    if bool_decide (user_id task ≠ u_id current_user) then
      raise (HTTPException HTTP_403_FORBIDDEN "Not authorized to update this task")
    else
      let previous_reminder_time := reminder_time task in
      let update_data := model_dump_exclude_unset task_data in
      let '(task, changes, previous_values) := diff_loop update_data task in
      now ← utcnow;
      task ← session_commit_task (set_updated_at now task);
      (if bool_decide (changes ≠ ∅) then
         try_except
           (let event := TaskUpdatedEvent "/api/tasks" (subject_of (id task))
                           (mkTaskUpdatedData (id task) (user_id task)
                                              changes previous_values) in
            await_publish (publish_task_event publisher) event;;
            logger_info ("Published task.updated event for task "
                         +:+ pretty (id task)))
           (λ e, logger_error ("Failed to publish task.updated event for task "
                               +:+ pretty (id task) +:+ ": " +:+ exn_message e))
       else mret ());;
      let reminder_time_changed := bool_decide (is_Some (changes !! "reminder_time")) in
      (if reminder_time_changed then
         if truthy (of_datetime (naive <$> previous_reminder_time))
            && negb (truthy (of_datetime (naive <$> reminder_time task))) then
           try_except
             (cancelled_at ← utcnow;
              let cancel_event :=
                ReminderCancelledEvent "/api/tasks" (subject_of (id task))
                  (mkReminderCancelledData (id task) (user_id task)
                                           "reminder_removed" cancelled_at) in
              await_publish (publish_reminder_event publisher) cancel_event;;
              logger_info ("Published reminder.cancelled event for task "
                           +:+ pretty (id task) +:+ " (reason: reminder_removed)"))
             (λ e, logger_error ("Failed to publish reminder.cancelled event for task "
                                 +:+ pretty (id task) +:+ ": " +:+ exn_message e))
         else
           match reminder_time task with
           | Some scheduled =>
             try_except
               (let schedule_event :=
                  TaskReminderScheduledEvent "/api/tasks" (subject_of (id task))
                    (mkTaskReminderScheduledData (id task) (user_id task) scheduled
                       (_get_notification_channels (reminder_config task))) in
                await_publish (publish_reminder_event publisher) schedule_event;;
                let action := if truthy (of_datetime (naive <$> previous_reminder_time))
                              then "rescheduled" else "scheduled" in
                logger_info ("Published reminder.scheduled event for task "
                             +:+ pretty (id task) +:+ " (" +:+ action +:+ ")"))
               (λ e, logger_error ("Failed to publish reminder.scheduled event for task "
                                   +:+ pretty (id task) +:+ ": " +:+ exn_message e))
           | None => mret ()
           end
       else mret ());;
      mret task
  end.

Definition toggle_task (task_id : Z) (current_user : User) : M Task :=
  found ← session_get_task task_id;
  match found with
  | None => raise (HTTPException HTTP_404_NOT_FOUND "Task not found")
  | Some task =>
    if bool_decide (user_id task ≠ u_id current_user) then
      raise (HTTPException HTTP_403_FORBIDDEN "Not authorized to update this task")
    else
      let previous_is_complete := is_complete task in
      let task := set_is_complete (negb (is_complete task)) task in
      now ← utcnow;
      task ← session_commit_task (set_updated_at now task);
      try_except
        (let event :=
           TaskUpdatedEvent "/api/tasks" (subject_of (id task))
             (mkTaskUpdatedData (id task) (user_id task)
                {[ "is_complete" := VBool (is_complete task) ]}
                {[ "is_complete" := VBool previous_is_complete ]}) in
         await_publish (publish_task_event publisher) event;;
         logger_info ("Published task.updated event for task " +:+ pretty (id task)))
        (λ e, logger_error ("Failed to publish task.updated event for task "
                            +:+ pretty (id task) +:+ ": " +:+ exn_message e));;
      mret task
  end.

Definition delete_task (task_id : Z) (current_user : User) : M unit :=
  found ← session_get_task task_id;
  match found with
  | None => raise (HTTPException HTTP_404_NOT_FOUND "Task not found")
  | Some task =>
    if bool_decide (user_id task ≠ u_id current_user) then
      raise (HTTPException HTTP_403_FORBIDDEN "Not authorized to delete this task")
    else
      let task_id_for_event := id task in
      let user_id_for_event := user_id task in
      let title_for_event := title task in
      let was_complete_for_event := is_complete task in
      let had_reminder := bool_decide (reminder_time task ≠ None) in
      session_delete_task task;;
      try_except
        (let event :=
           TaskDeletedEvent "/api/tasks" (subject_of task_id_for_event)
             (mkTaskDeletedData task_id_for_event user_id_for_event
                                title_for_event was_complete_for_event) in
         await_publish (publish_task_event publisher) event;;
         logger_info ("Published task.deleted event for task "
                      +:+ pretty task_id_for_event))
        (λ e, logger_error ("Failed to publish task.deleted event for task "
                            +:+ pretty task_id_for_event +:+ ": " +:+ exn_message e));;
      (if had_reminder then
         try_except
           (cancelled_at ← utcnow;
            let cancel_event :=
              ReminderCancelledEvent "/api/tasks" (subject_of task_id_for_event)
                (mkReminderCancelledData task_id_for_event user_id_for_event
                                         "task_deleted" cancelled_at) in
            await_publish (publish_reminder_event publisher) cancel_event;;
            logger_info ("Published reminder.cancelled event for task "
                         +:+ pretty task_id_for_event +:+ " (reason: task_deleted)"))
           (λ e, logger_error ("Failed to publish reminder.cancelled event for task "
                               +:+ pretty task_id_for_event +:+ ": " +:+ exn_message e))
       else mret ());;
      mret ()
  end.

(** The HTTP outcome of each route. *)
Definition create_task_response (r : Result Task) : Response :=
  respond HTTP_201_CREATED BodyTask r.
Definition update_task_response (r : Result Task) : Response :=
  respond HTTP_200_OK BodyTask r.
Definition toggle_task_response (r : Result Task) : Response :=
  respond HTTP_200_OK BodyTask r.
Definition delete_task_response (r : Result unit) : Response :=
  respond HTTP_204_NO_CONTENT (λ _, BodyEmpty) r.

(** *** dependencies.py *)

(** [jose.jwt.decode] behind [app.auth.decode_jwt] ([None] when the token
    is rejected) and passlib's hash behind [app.auth.hash_password]. *)
Variable decode_jwt : string → option dict.
Variable hash_password : string → string.

(** [str.lower()] on the ASCII letters.  (Python also maps non-ASCII
    capitals; none of them lowers to a letter of "development".) *)
Definition ascii_lower (c : Ascii.ascii) : Ascii.ascii :=
  let n := Ascii.nat_of_ascii c in
  if ((65 <=? n) && (n <=? 90))%nat then Ascii.ascii_of_nat (n + 32) else c.

Fixpoint lower (s : string) : string :=
  match s with
  | EmptyString => EmptyString
  | String c rest => String (ascii_lower c) (lower rest)
  end.

(** [os.getenv(name, fallback)] *)
Definition getenv (environ : gmap string string) (name fallback : string) : string :=
  default fallback (environ !! name).

(** [session.get(User, ident)]; an identity that is not an integer matches
    no row. *)
Definition session_get_user (ident : json) : M (option User) := λ w,
  (Ok (match ident with JNum n => users (db w) !! n | _ => None end), w).

(** [session.add(user); session.commit(); session.refresh(user)] for a new
    user; [email] is a unique column. *)
Definition session_commit_new_user (make : Z → User) : M User := λ w,
  let user := make (user_seq (db w)) in
  if bool_decide (map_Forall (λ _ u, u_email u ≠ u_email user) (users (db w))) then
    (Ok user, mkWorld (mkDb (tasks (db w)) (<[u_id user := user]> (users (db w)))
                            (task_seq (db w)) (user_seq (db w) + 1))
                      (clock w) (pub_state w) (sent w) (log w))
  else (Raise IntegrityError, w).

Definition get_current_user (access_token : option string) : M User :=
  if negb (truthy (of_str access_token)) then
    raise (HTTPException HTTP_401_UNAUTHORIZED "Not authenticated")
  else
    let payload := access_token ≫= decode_jwt in
    if negb (truthy (of_dict payload)) then
      raise (HTTPException HTTP_401_UNAUTHORIZED "Invalid token")
    else
      let user_id := default JNull (payload ≫= (.!! "user_id")) in
      if negb (json_truthy user_id) then
        raise (HTTPException HTTP_401_UNAUTHORIZED "Invalid token payload")
      else
        user ← session_get_user user_id;
        match user with
        | None => raise (HTTPException HTTP_401_UNAUTHORIZED "User not found")
        | Some user => mret user
        end.

Definition get_dev_or_current_user (environ : gmap string string)
    (access_token : option string) : M User :=
  let environment := lower (getenv environ "ENVIRONMENT" "production") in
  if bool_decide (environment = "development") then
    dev_user ← session_get_user (JNum 1);
    match dev_user with
    | Some dev_user => mret dev_user
    | None =>
      created ← utcnow;
      session_commit_new_user (λ new_id,
        mkUser new_id "dev@local.test" (hash_password "dev123") created)
    end
  else if negb (truthy (of_str access_token)) then
    raise (HTTPException HTTP_401_UNAUTHORIZED "Not authenticated")
  else
    let payload := access_token ≫= decode_jwt in
    if negb (truthy (of_dict payload)) then
      raise (HTTPException HTTP_401_UNAUTHORIZED "Invalid token")
    else
      let user_id := default JNull (payload ≫= (.!! "user_id")) in
      if negb (json_truthy user_id) then
        raise (HTTPException HTTP_401_UNAUTHORIZED "Invalid token payload")
      else
        user ← session_get_user user_id;
        match user with
        | None => raise (HTTPException HTTP_401_UNAUTHORIZED "User not found")
        | Some user => mret user
        end.

End Handlers.

(** ** alembic/versions/004_phase5_event_driven.py: [recurrence_patterns] *)

(** A row offered to [recurrence_patterns]; [None] is SQL NULL.  Only the
    columns that a constraint of the table mentions are kept, besides the
    key. *)
Record RecurrencePatternRow := mkRecurrencePatternRow {
  rp_frequency : option string;
  rp_interval : option Z;
  rp_end_date : option timestamp;
  rp_max_occurrences : option Z;
  rp_timezone : option string
}.

(** SQL's three-valued truth: a CHECK constraint rejects a row only when
    its condition is false, not when it is unknown. *)
Inductive sql_bool := SqlTrue | SqlFalse | SqlUnknown.

Definition check_passes (b : sql_bool) : bool :=
  match b with SqlFalse => false | _ => true end.

Definition sql_of_bool (b : bool) : sql_bool := if b then SqlTrue else SqlFalse.

Definition sql_or (a b : sql_bool) : sql_bool :=
  match a, b with
  | SqlTrue, _ | _, SqlTrue => SqlTrue
  | SqlFalse, SqlFalse => SqlFalse
  | _, _ => SqlUnknown
  end.

Definition frequencies : list string :=
  ["daily"; "weekly"; "monthly"; "yearly"; "custom"].

(** [frequency IN ('daily', 'weekly', 'monthly', 'yearly', 'custom')] *)
Definition ck_recurrence_frequency (r : RecurrencePatternRow) : sql_bool :=
  match rp_frequency r with
  | Some f => sql_of_bool (bool_decide (f ∈ frequencies))
  | None => SqlUnknown
  end.

(** [interval > 0] *)
Definition ck_recurrence_interval_positive (r : RecurrencePatternRow) : sql_bool :=
  match rp_interval r with
  | Some i => sql_of_bool (bool_decide (i > 0))
  | None => SqlUnknown
  end.

(** [(end_date IS NULL) OR (max_occurrences IS NULL)] *)
Definition ck_recurrence_end_condition (r : RecurrencePatternRow) : sql_bool :=
  sql_or (sql_of_bool (bool_decide (rp_end_date r = None)))
         (sql_of_bool (bool_decide (rp_max_occurrences r = None))).

(** [nullable=False] on [frequency], [interval] and [timezone]. *)
Definition recurrence_not_null (r : RecurrencePatternRow) : bool :=
  bool_decide (is_Some (rp_frequency r)) && bool_decide (is_Some (rp_interval r))
  && bool_decide (is_Some (rp_timezone r)).

(** Whether an INSERT or UPDATE producing the row [r] goes through. *)
Definition recurrence_write_accepted (r : RecurrencePatternRow) : bool :=
  recurrence_not_null r
  && check_passes (ck_recurrence_frequency r)
  && check_passes (ck_recurrence_interval_positive r)
  && check_passes (ck_recurrence_end_condition r).

(** ** The rest of the routers *)

Section Accounts.

Context {PS : Type}.

#[local] Existing Instance M_ret.
#[local] Existing Instance M_bind.

(** *** routers/tasks.py: listing *)

(** [ORDER BY created_at DESC] *)
Definition newest_first (a b : Task) : Prop := created_at b ≤ created_at a.

#[local] Instance newest_first_dec a b : Decision (newest_first a b).
Proof. unfold newest_first. apply _. Defined.

(** [session.exec(select(Task).where(Task.user_id == owner)
    .order_by(Task.created_at.desc())).all()].  The order of rows with the
    same [created_at] is left open by SQL; here it is the one a merge sort
    of the rows in key order gives. *)
Definition session_select_tasks (owner : Z) : @M PS (list Task) := λ w,
  (Ok (merge_sort newest_first
         (filter (λ t, user_id t = owner) (map_to_list (tasks (db w))).*2)), w).

Definition get_tasks (current_user : User) : @M PS (list Task) :=
  session_select_tasks (u_id current_user).

(** *** app/auth.py *)

(** passlib's bcrypt context: hashing draws a fresh salt, taken here as an
    argument; jose's [jwt.encode] under the configured key and algorithm. *)
Variable pwd_context_hash : string → string → string.
Variable pwd_context_verify : string → string → bool.
Variable jwt_encode : dict → string.
Variable ACCESS_TOKEN_EXPIRE_HOURS : Z.

Definition hash_password_salted (salt password : string) : string :=
  pwd_context_hash salt password.

Definition verify_password (plain_password hashed_password : string) : bool :=
  pwd_context_verify plain_password hashed_password.

(** [timedelta(hours=h)] in microseconds *)
Definition hours (h : Z) : Z := h * 3600000000.

Definition create_jwt (user_id : Z) : @M PS string :=
  now ← utcnow;
  let expire := now + hours ACCESS_TOKEN_EXPIRE_HOURS in
  let payload : dict := {[ "user_id" := JNum user_id; "exp" := JNum expire ]} in
  mret (jwt_encode payload).

(** *** schemas.py and routers/auth.py *)

Record UserRegister := mkUserRegister {
  reg_email : string;
  reg_password : string
}.

Record UserLogin := mkUserLogin {
  login_email : string;
  login_password : string
}.

(** What a handler does to the cookies of the [Response] it is given. *)
Inductive CookieOp :=
  | SetCookie (key value : string) (httponly : bool) (samesite : string)
              (max_age : Z) (path : string)
  | DeleteCookie (key : string) (httponly : bool) (samesite : string).

(** [try: body  except IntegrityError: handler] *)
Definition try_except_integrity {A} (body : @M PS A) (handler : @M PS A)
  : @M PS A := λ w,
  match body w with
  | (Raise IntegrityError, w') => handler w'
  | other => other
  end.

Definition HTTP_409_CONFLICT : Z := 409.

Definition register (user_data : UserRegister) (salt : string)
    (response : list CookieOp) : @M PS (User * list CookieOp) :=
  let hashed_password := hash_password_salted salt (reg_password user_data) in
  created ← utcnow;
  user ← try_except_integrity
    (session_commit_new_user (λ new_id,
       mkUser new_id (lower (reg_email user_data)) hashed_password created))
    (raise (HTTPException HTTP_409_CONFLICT "Email already registered"));
  token ← create_jwt (u_id user);
  mret (user, response ++ [SetCookie "access_token" token true "lax" 86400 "/"]).

(** [session.exec(select(User).where(User.email == email)).first()] *)
Definition session_first_user_by_email (email : string) : @M PS (option User) := λ w,
  (Ok (head (filter (λ u, u_email u = email) (map_to_list (users (db w))).*2)), w).

Definition login (credentials : UserLogin) (response : list CookieOp)
  : @M PS (User * list CookieOp) :=
  found ← session_first_user_by_email (lower (login_email credentials));
  match found with
  | None => raise (HTTPException HTTP_401_UNAUTHORIZED "Invalid credentials")
  | Some user =>
    if negb (verify_password (login_password credentials) (u_hashed_password user))
    then raise (HTTPException HTTP_401_UNAUTHORIZED "Invalid credentials")
    else
      token ← create_jwt (u_id user);
      mret (user, response ++ [SetCookie "access_token" token true "lax" 86400 "/"])
  end.

Definition logout (response : list CookieOp) : list CookieOp * string :=
  (response ++ [DeleteCookie "access_token" true "lax"], "Successfully logged out").

End Accounts.

(** * Properties *)

(** ** Vocabulary *)

(** The events handed to the publisher while [m] runs from [w], in order. *)
Definition emitted {PS A} (m : World PS → Result A * World PS) (w : World PS)
  : list Event :=
  (drop (length (sent w)) (sent (m w).2)).*1.

Definition is_task_updated (e : Event) : bool :=
  match e with TaskUpdatedEvent _ _ _ => true | _ => false end.
Definition is_reminder_scheduled (e : Event) : bool :=
  match e with TaskReminderScheduledEvent _ _ _ => true | _ => false end.
Definition is_reminder_cancelled (e : Event) : bool :=
  match e with ReminderCancelledEvent _ _ _ => true | _ => false end.

(** The task with id [task_id] exists and its row is [t]. *)
Definition has_task {PS} (w : World PS) (task_id : Z) (t : Task) : Prop :=
  tasks (db w) !! task_id = Some t ∧ id t = task_id.

(** A publisher whose calls all return. *)
Definition reliable_publisher : EventPublisher unit :=
  mkEventPublisher (λ _ s, (Returned, s)) (λ _ s, (Returned, s)).

(** A publisher whose calls all raise. *)
Definition broken_publisher : EventPublisher unit :=
  mkEventPublisher (λ _ s, (Raised "bus down", s)) (λ _ s, (Raised "bus down", s)).

(** A publisher that follows a script of outcomes, one per call, and
    returns once the script is used up. *)
Definition scripted_publisher : EventPublisher (list Outcome) :=
  let next := λ (_ : Event) (s : list Outcome),
    match s with
    | [] => (Returned, [])
    | o :: rest => (o, rest)
    end in
  mkEventPublisher next next.

(** The same world seen by another publisher. *)
Definition with_pub_state {PS PS'} (ps : PS') (w : World PS) : World PS' :=
  mkWorld (db w) (clock w) ps (sent w) (log w).

(** The columns whose changes an update reports: all of them except
    [updated_at]. *)
Definition tracked_columns : list string :=
  ["id"; "user_id"; "title"; "description"; "priority"; "is_complete";
   "created_at"; "reminder_time"; "reminder_config"].

(** The payload [d] of a [TaskUpdated] event describes the difference
    between the rows [pre] and [post] on the given columns exactly: both
    dictionaries have the same keys, a column is a key precisely when it is
    one of [columns] and its value differs, and the dictionaries hold the
    new and the old value. *)
Definition diff_exact (columns : list string) (pre post : Task)
    (d : TaskUpdatedData) : Prop :=
  dom (tu_changes d) = dom (tu_previous_values d) ∧
  (∀ c, c ∈ dom (tu_changes d) ↔ c ∈ columns ∧ getattr pre c ≠ getattr post c) ∧
  (∀ c v, tu_changes d !! c = Some v → v = getattr post c) ∧
  (∀ c v, tu_previous_values d !! c = Some v → v = getattr pre c).

(** The request does not send [null] for a column that the table declares
    NOT NULL. *)
Definition keeps_required_columns (d : TaskUpdate) : Prop :=
  up_title d ≠ Some None ∧ up_description d ≠ Some None ∧ up_priority d ≠ Some None.

(** The channels of a reminder as the specification words them: the value
    under the key "channels" of the configuration when there is one, and
    ["email"] when the configuration is absent or lacks that key. *)
Definition channels_or_email (reminder_config : option dict) : json :=
  match reminder_config with
  | Some d =>
      match d !! "channels" with
      | Some channels => channels
      | None => JArr [JStr "email"]
      end
  | None => JArr [JStr "email"]
  end.


(** C7 as it is stated: an update whose submitted fields all equal the
    stored ones leaves the stored row as it is and emits no [TaskUpdated]
    event. *)
Definition noop_update_is_not_persisted {PS} {column : TimestampColumn}
    (publisher : EventPublisher PS) (task_id : Z) (d : TaskUpdate)
    (current_user : User) (w : World PS) : Prop :=
  (∀ task k v, tasks (db w) !! task_id = Some task →
               (k, v) ∈ model_dump_exclude_unset d →
               py_eq (getattr task k) v = true) →
  tasks (db (update_task publisher task_id d current_user w).2) !! task_id
    = tasks (db w) !! task_id ∧
  filter is_task_updated (emitted (update_task publisher task_id d current_user) w) = [].

(** ENVIRONMENT is set, and to "development" up to case. *)
Definition development_opt_in (environ : gmap string string) : Prop :=
  ∃ v, environ !! "ENVIRONMENT" = Some v ∧ lower v = "development".

(** What an attribute reads after [v] has been assigned to it and the row
    has been committed and refreshed. *)
Definition as_stored {column : TimestampColumn} (v : value) : value :=
  match v with
  | VDateTime d => VDateTime (naive (column_reading d))
  | _ => v
  end.

(** An assignment [setattr(task, key, value)] that takes effect on the
    attribute [key] and on no other. *)
Definition settable {column : TimestampColumn} (item : string * value) : Prop :=
  ∀ t, getattr (setattr t item.1 item.2) item.1 = as_stored item.2 ∧
       ∀ k, k ≠ item.1 → getattr (setattr t item.1 item.2) k = getattr t k.

(** What the loop has recorded about attribute [k], relative to the task
    [t0] it started from: either nothing, and the attribute is as it was;
    or the submitted and the old value, which compared unequal, and the
    attribute has been assigned the submitted value. *)
Definition tracks {column : TimestampColumn} (t0 : Task)
    (acc : Task * gmap string value * gmap string value) (k : string) : Prop :=
  (acc.1.2 !! k = None ∧ acc.2 !! k = None ∧ getattr acc.1.1 k = getattr t0 k) ∨
  (∃ v, acc.1.2 !! k = Some v ∧ acc.2 !! k = Some (getattr t0 k) ∧
        py_ne (getattr t0 k) v = true ∧ getattr acc.1.1 k = as_stored v).

(** The request sends no timezone-aware [reminder_time]. *)
Definition timezone_free (d : TaskUpdate) : Prop :=
  ∀ x, up_reminder_time d = Some (Some x) → utcoffset x = None.

Definition updatable : list string :=
  ["title"; "description"; "priority"; "reminder_time"; "reminder_config"].

(** ** Sample data *)

Module Sample.

Definition alice : User := mkUser 1 "alice@example.com" "$2b$hash" 0.
Definition bob : User := mkUser 2 "bob@example.com" "$2b$hash" 0.

Definition milk : Task :=
  mkTask 7 1 (Some "Buy milk") (Some "") (Some "medium") false 10 10
         (Some 500) None.
Definition bread : Task :=
  mkTask 8 1 (Some "Buy bread") (Some "") (Some "low") false 20 20 None None.

Definition store : Db := mkDb {[ 7 := milk; 8 := bread ]} {[ 1 := alice; 2 := bob ]} 9 3.

Definition world {PS} (ps : PS) : World PS := mkWorld store 100 ps [] [].

Definition untouched : TaskUpdate := mkTaskUpdate None None None None None.
Definition same_title : TaskUpdate :=
  mkTaskUpdate (Some (Some "Buy milk")) None None None None.

(** The reminder time of [milk], sent again as "...Z". *)
Definition resend_reminder_utc : TaskUpdate :=
  mkTaskUpdate None None None (Some (Some (mkDatetime 500 (Some 0)))) None.

Definition null_title_and_reminder : TaskUpdate :=
  mkTaskUpdate (Some None) None None (Some None) None.
Definition drop_reminder : TaskUpdate :=
  mkTaskUpdate None None None (Some None) None.
Definition retitle : TaskUpdate :=
  mkTaskUpdate (Some (Some "Buy oat milk")) None None None None.

(** A database session in UTC: a timezone-aware value is stored as its
    reading in UTC. *)
#[global] Instance utc_session : TimestampColumn := λ reading offset, reading - offset.

Definition tokens (tok : string) : option dict :=
  if String.eqb tok "alice-token" then Some {[ "user_id" := JNum 1 ]} else None.

End Sample.

(** ** Vocabulary for the further properties *)

(** Every task is stored under its own id, below the next id the database
    will hand out. *)
Definition store_ok (d : Db) : Prop :=
  ∀ k t, tasks d !! k = Some t → id t = k ∧ k < task_seq d.

(** The same for users, whose emails are moreover pairwise different. *)
Definition users_ok (d : Db) : Prop :=
  (∀ k u, users d !! k = Some u → u_id u = k ∧ k < user_seq d) ∧
  (∀ k1 k2 u1 u2, users d !! k1 = Some u1 → users d !! k2 = Some u2 →
                  u_email u1 = u_email u2 → k1 = k2).

(** The publish calls, and the log lines, that running [m] from [w] adds. *)
Definition new_calls {PS A} (m : World PS → Result A * World PS) (w : World PS)
  : list (Event * Outcome) :=
  drop (length (sent w)) (sent (m w).2).

Definition new_log {PS A} (m : World PS → Result A * World PS) (w : World PS)
  : list LogLine :=
  drop (length (log w)) (log (m w).2).

(** An info line for a call that returned, an error line for one that
    raised. *)
Definition line_reports (line : LogLine) (call : Event * Outcome) : Prop :=
  match line, call.2 with
  | LogInfo _, Returned => True
  | LogError _, Raised _ => True
  | _, _ => False
  end.

(** The request sends [null] for a NOT NULL column. *)
Definition nulls_required_column (d : TaskUpdate) : Prop :=
  up_title d = Some None ∨ up_description d = Some None ∨ up_priority d = Some None.

(** The cookie both [register] and [login] set for the user with id [n],
    when the token is issued at time [issued]. *)
Definition access_cookie (jwt_encode : dict → string) (expire_hours : Z)
    (n : Z) (issued : timestamp) : CookieOp :=
  SetCookie "access_token"
    (jwt_encode {[ "user_id" := JNum n; "exp" := JNum (issued + hours expire_hours) ]})
    true "lax" 86400 "/".

Module Demo.

(** A toy password scheme and token codec in place of bcrypt and the JWT
    library. *)
Definition toy_hash (salt password : string) : string := salt +:+ "$" +:+ password.
Definition toy_verify (password hashed : string) : bool :=
  bool_decide (hashed = toy_hash "s1" password ∨ hashed = toy_hash "s2" password).
Definition toy_encode (payload : dict) : string :=
  match payload !! "user_id" with
  | Some (JNum n) => "token-" +:+ pretty n
  | _ => "token"
  end.
Definition toy_decode (token : string) : option dict :=
  if String.eqb token "token-3" then Some {[ "user_id" := JNum 3 ]}
  else if String.eqb token "token-1" then Some {[ "user_id" := JNum 1 ]}
  else if String.eqb token "token-0" then Some {[ "user_id" := JNum 0 ]}
  else None.

Definition carol : UserRegister := mkUserRegister "Carol@Example.com" "correct horse".

Definition zero : User := mkUser 0 "zero@example.com" "$2b$hash" 0.

Definition world_with_zero : World () :=
  mkWorld (mkDb ∅ {[ 0 := zero ]} 1 1) 100 () [] [].

Definition empty_world : World () := mkWorld (mkDb ∅ ∅ 5 5) 100 () [] [].

End Demo.

(** ** Recurrence patterns *)

Lemma check_passes_of_bool b : check_passes (sql_of_bool b) = b.
Proof. by destruct b. Qed.

(** C8.  A row of [recurrence_patterns] that the write-time constraints let
    through has a strictly positive interval, a frequency among the five
    supported ones and at most one of the two end conditions; a row with
    both end conditions, or with an interval of zero or less, is refused. *)
Theorem recurrence_constraints_hold_at_write (r : RecurrencePatternRow) :
  (recurrence_write_accepted r = true →
     (∃ i, rp_interval r = Some i ∧ i > 0) ∧
     (∃ f, rp_frequency r = Some f ∧ f ∈ frequencies) ∧
     (rp_end_date r = None ∨ rp_max_occurrences r = None)) ∧
  (is_Some (rp_end_date r) → is_Some (rp_max_occurrences r) →
     recurrence_write_accepted r = false) ∧
  (∀ i, rp_interval r = Some i → i ≤ 0 → recurrence_write_accepted r = false).
Proof.
  destruct r as [f i e m tz]; unfold recurrence_write_accepted, recurrence_not_null,
    ck_recurrence_frequency, ck_recurrence_interval_positive,
    ck_recurrence_end_condition; simpl.
  split; [|split].
  - rewrite !andb_true_iff, !bool_decide_eq_true.
    intros [[[[[Hf Hi] _] Hfreq] Hint] Hend].
    destruct Hf as [f' ->], Hi as [i' ->].
    rewrite check_passes_of_bool, bool_decide_eq_true in Hfreq, Hint.
    split; [by exists i'|]. split; [by exists f'|].
    destruct e, m; simpl in Hend; (discriminate || auto).
  - intros [e' ->] [m' ->]. simpl. by rewrite !andb_false_r.
  - intros i' -> Hle.
    rewrite check_passes_of_bool, (bool_decide_eq_false_2 (i' > 0)) by lia.
    by rewrite andb_false_r.
Qed.

Lemma recurrence_constraints_hold_at_write_witness :
  let r := mkRecurrencePatternRow (Some "weekly") (Some 2) (Some 1000) None (Some "UTC") in
  let both := mkRecurrencePatternRow (Some "weekly") (Some 2) (Some 1000) (Some 5) (Some "UTC") in
  let zero := mkRecurrencePatternRow (Some "weekly") (Some 0) None None (Some "UTC") in
  ((∃ i, rp_interval r = Some i ∧ i > 0) ∧
   (∃ f, rp_frequency r = Some f ∧ f ∈ frequencies) ∧
   (rp_end_date r = None ∨ rp_max_occurrences r = None)) ∧
  recurrence_write_accepted both = false ∧
  recurrence_write_accepted zero = false.
Proof.
  intros r both zero. split; [|split].
  - apply (proj1 (recurrence_constraints_hold_at_write r)). reflexivity.
  - apply (proj1 (proj2 (recurrence_constraints_hold_at_write both))); by eexists.
  - apply (proj2 (proj2 (recurrence_constraints_hold_at_write zero)) 0); [reflexivity | lia].
Defined.

(** ** Running a handler *)

Ltac unfold_run :=
  unfold create_task, update_task, toggle_task, delete_task,
    get_current_user, get_dev_or_current_user,
    session_get_task, session_get_user, session_delete_task,
    try_except, await_publish, utcnow, logger_info, logger_error, raise,
    mbind, mret, M_bind, M_ret.

(** C6.  Update, toggle and delete answer 404 when no task has the given
    id and 403 when the task belongs to somebody else; in both cases the
    world -- task store, record of published events, log -- is left exactly
    as it was. *)
Theorem missing_or_foreign_task_is_refused {PS} {column : TimestampColumn}
    (publisher : EventPublisher PS) (task_id : Z) (task_data : TaskUpdate)
    (current_user : User) (w : World PS) :
  (tasks (db w) !! task_id = None →
     let u := update_task publisher task_id task_data current_user w in
     let t := toggle_task publisher task_id current_user w in
     let d := delete_task publisher task_id current_user w in
     status (update_task_response u.1) = 404 ∧ u.2 = w ∧
     status (toggle_task_response t.1) = 404 ∧ t.2 = w ∧
     status (delete_task_response d.1) = 404 ∧ d.2 = w) ∧
  (∀ task, tasks (db w) !! task_id = Some task → user_id task ≠ u_id current_user →
     let u := update_task publisher task_id task_data current_user w in
     let t := toggle_task publisher task_id current_user w in
     let d := delete_task publisher task_id current_user w in
     status (update_task_response u.1) = 403 ∧ u.2 = w ∧
     status (toggle_task_response t.1) = 403 ∧ t.2 = w ∧
     status (delete_task_response d.1) = 403 ∧ d.2 = w).
Proof.
  split.
  - intros Hnone. unfold_run. rewrite Hnone. simpl. done.
  - intros task Hsome Hne. unfold_run. rewrite Hsome.
    rewrite (bool_decide_eq_true_2 _ Hne). simpl. done.
Qed.

Ltac run_publish :=
  match goal with
  | |- context [publish_task_event ?p ?e ?s] =>
      destruct (publish_task_event p e s) as [[|?] ?] eqn:?
  | |- context [publish_reminder_event ?p ?e ?s] =>
      destruct (publish_reminder_event p e s) as [[|?] ?] eqn:?
  end; cbn [fst snd db clock pub_state sent log].

Ltac emitted_list :=
  unfold emitted; cbn [fst snd db clock pub_state sent log];
  rewrite <- ?app_assoc, ?drop_app_length, ?app_nil_r, ?drop_all;
  cbn [fmap list_fmap app fst snd filter list_filter].

(** C4.  Deleting an existing task of the caller hands the publisher
    exactly one [ReminderCancelled] event, with reason "task_deleted", when
    the task had a reminder time, and none when it had not; this holds for
    every publisher, so in particular whether the publication of the
    companion [TaskDeleted] event returned or raised. *)
Theorem delete_cancels_reminder_once {PS} (publisher : EventPublisher PS)
    (task_id : Z) (current_user : User) (w : World PS) (task : Task) :
  has_task w task_id task → user_id task = u_id current_user →
  filter is_reminder_cancelled (emitted (delete_task publisher task_id current_user) w)
  = match reminder_time task with
    | Some _ =>
        [ReminderCancelledEvent "/api/tasks" (subject_of task_id)
           (mkReminderCancelledData task_id (user_id task) "task_deleted" (clock w))]
    | None => []
    end.
Proof.
  intros [Hget Hid] Hown. unfold emitted. unfold_run. rewrite Hget, Hid.
  rewrite bool_decide_eq_false_2 by (intros ?; congruence).
  cbn [fst snd db clock pub_state sent log].
  run_publish; destruct (reminder_time task); cbn [bool_decide decide_rel]; simpl.
  all: try run_publish.
  all: emitted_list.
  all: reflexivity.
Qed.

(** ** The change-tracking loop *)

Lemma eqb_ne (k c : string) : k ≠ c → String.eqb k c = false.
Proof. apply String.eqb_neq. Qed.

Ltac frame_getattr :=
  let H := fresh in
  intros H; apply eqb_ne in H; unfold getattr;
  cbn [id user_id title description priority is_complete created_at updated_at
       reminder_time reminder_config set_title set_description set_priority
       set_is_complete set_updated_at set_reminder_time set_reminder_config];
  rewrite H; reflexivity.

Lemma getattr_set_title x t k :
  k ≠ "title" → getattr (set_title x t) k = getattr t k.
Proof. frame_getattr. Qed.
Lemma getattr_set_description x t k :
  k ≠ "description" → getattr (set_description x t) k = getattr t k.
Proof. frame_getattr. Qed.
Lemma getattr_set_priority x t k :
  k ≠ "priority" → getattr (set_priority x t) k = getattr t k.
Proof. frame_getattr. Qed.
Lemma getattr_set_is_complete x t k :
  k ≠ "is_complete" → getattr (set_is_complete x t) k = getattr t k.
Proof. frame_getattr. Qed.
Lemma getattr_set_updated_at x t k :
  k ≠ "updated_at" → getattr (set_updated_at x t) k = getattr t k.
Proof. frame_getattr. Qed.
Lemma getattr_set_reminder_time x t k :
  k ≠ "reminder_time" → getattr (set_reminder_time x t) k = getattr t k.
Proof. frame_getattr. Qed.
Lemma getattr_set_reminder_config x t k :
  k ≠ "reminder_config" → getattr (set_reminder_config x t) k = getattr t k.
Proof. frame_getattr. Qed.

(** Python's [==] is reflexive on the values of the embedding, so two
    values that compare unequal are different values. *)
Lemma datetime_eq_refl d : datetime_eq d d = true.
Proof.
  unfold datetime_eq. destruct (utcoffset d); by apply bool_decide_eq_true_2.
Qed.

Lemma py_eq_refl v : py_eq v v = true.
Proof.
  destruct v; simpl; try by apply bool_decide_eq_true_2.
  - reflexivity.
  - apply datetime_eq_refl.
Qed.

Lemma py_ne_neq a b : py_ne a b = true → a ≠ b.
Proof.
  unfold py_ne. intros H ->. by rewrite py_eq_refl in H.
Qed.

(** A naive datetime equals exactly the naive datetime with its reading. *)
Lemma datetime_eq_naive r d :
  datetime_eq (naive r) d = true ↔ d = naive r.
Proof.
  destruct d as [x [o|]]; unfold datetime_eq, naive; simpl.
  - split; [discriminate|]. intros [=].
  - rewrite bool_decide_eq_true. split; [by intros ->|]. by intros [= ->].
Qed.

Lemma py_eq_of_str a b : py_eq (of_str a) (of_str b) = true ↔ a = b.
Proof.
  destruct a, b; simpl; rewrite ?bool_decide_eq_true;
    split; try discriminate; try done; congruence.
Qed.

Lemma py_eq_stored_datetime (r : option timestamp) (x : option datetime) :
  py_eq (of_datetime (naive <$> r)) (of_datetime x) = true → x = naive <$> r.
Proof.
  destruct r, x; simpl; try discriminate; [|done].
  by intros ->%datetime_eq_naive.
Qed.

Lemma column_reading_naive {column : TimestampColumn} r : column_reading (naive r) = r.
Proof. reflexivity. Qed.

Lemma as_stored_of_str {column : TimestampColumn} x : as_stored (of_str x) = of_str x.
Proof. by destruct x. Qed.
Lemma as_stored_of_dict {column : TimestampColumn} x : as_stored (of_dict x) = of_dict x.
Proof. by destruct x. Qed.
Lemma as_stored_of_datetime {column : TimestampColumn} x :
  as_stored (of_datetime x) = of_datetime (naive <$> (column_reading <$> x)).
Proof. by destruct x. Qed.

Lemma as_stored_timezone_free {column : TimestampColumn} (x : option datetime) :
  (∀ d, x = Some d → utcoffset d = None) → as_stored (of_datetime x) = of_datetime x.
Proof.
  destruct x as [[r o]|]; simpl; [|done]. intros Hfree.
  specialize (Hfree _ eq_refl). simpl in Hfree. by subst o.
Qed.

Lemma settable_title {column : TimestampColumn} x : settable ("title", of_str x).
Proof.
  intros t. split; [by destruct x|]. intros k Hk.
  destruct x; apply getattr_set_title, Hk.
Qed.
Lemma settable_description {column : TimestampColumn} x :
  settable ("description", of_str x).
Proof.
  intros t. split; [by destruct x|]. intros k Hk.
  destruct x; apply getattr_set_description, Hk.
Qed.
Lemma settable_priority {column : TimestampColumn} x : settable ("priority", of_str x).
Proof.
  intros t. split; [by destruct x|]. intros k Hk.
  destruct x; apply getattr_set_priority, Hk.
Qed.
Lemma settable_reminder_time {column : TimestampColumn} x :
  settable ("reminder_time", of_datetime x).
Proof.
  intros t. split; [by destruct x|]. intros k Hk.
  destruct x; apply getattr_set_reminder_time, Hk.
Qed.
Lemma settable_reminder_config {column : TimestampColumn} x :
  settable ("reminder_config", of_dict x).
Proof.
  intros t. split; [by destruct x|]. intros k Hk.
  destruct x; apply getattr_set_reminder_config, Hk.
Qed.

(** One pass of the loop body: the attribute is assigned, and the pair of
    old and new value recorded, exactly when the two compare unequal. *)
Lemma diff_step_inv {column : TimestampColumn} t0 acc item rest :
  settable item → item.1 ∉ rest →
  (∀ k, tracks t0 acc k) →
  (∀ k, k ∈ item.1 :: rest → acc.1.2 !! k = None) →
  let acc' := diff_step acc item in
  (∀ k, tracks t0 acc' k) ∧
  (∀ k, k ∈ rest → acc'.1.2 !! k = None) ∧
  (if py_ne (getattr acc.1.1 item.1) item.2
   then getattr acc'.1.1 item.1 = as_stored item.2 ∧ acc'.1.2 !! item.1 = Some item.2
   else getattr acc'.1.1 item.1 = getattr acc.1.1 item.1 ∧ acc'.1.2 !! item.1 = None) ∧
  (∀ k, k ≠ item.1 →
     getattr acc'.1.1 k = getattr acc.1.1 k ∧ acc'.1.2 !! k = acc.1.2 !! k ∧
     acc'.2 !! k = acc.2 !! k).
Proof.
  destruct acc as [[t ch] pv], item as [key v]. simpl.
  intros Hset Hfresh Htr Hpend.
  assert (ch !! key = None) as Hkey by (apply Hpend, elem_of_cons; by left).
  assert (getattr t key = getattr t0 key) as Hold.
  { destruct (Htr key) as [(_ & _ & H) | (x & H & _)]; simpl in *; [done|].
    by rewrite Hkey in H. }
  destruct (py_ne (getattr t key) v) eqn:Hne; simpl.
  - destruct (Hset t) as [Hget Hframe]. simpl in *.
    split; [|split; [|split]].
    + intros k. destruct (decide (k = key)) as [->|Hk].
      * right. exists v. simpl. rewrite !lookup_insert_eq, Hget, Hold.
        split; [done|]. split; [done|]. split; [by rewrite <- Hold|done].
      * unfold tracks. simpl. rewrite !lookup_insert_ne, Hframe by done. apply Htr.
    + intros k Hk. rewrite lookup_insert_ne by (intros ->; done).
      apply Hpend, elem_of_cons. by right.
    + by rewrite lookup_insert_eq.
    + intros k Hk. rewrite !lookup_insert_ne by done. by rewrite Hframe.
  - split; [done|]. split; [intros; apply Hpend, elem_of_cons; by right|].
    split; done.
Qed.

Lemma foldl_diff_step_inv {column : TimestampColumn} t0 l : ∀ acc,
  Forall settable l → NoDup l.*1 →
  (∀ k, tracks t0 acc k) →
  (∀ k, k ∈ l.*1 → acc.1.2 !! k = None) →
  let acc' := foldl diff_step acc l in
  (∀ k, tracks t0 acc' k) ∧
  (∀ k v, (k, v) ∈ l →
     if py_ne (getattr acc.1.1 k) v
     then getattr acc'.1.1 k = as_stored v ∧ acc'.1.2 !! k = Some v
     else getattr acc'.1.1 k = getattr acc.1.1 k ∧ acc'.1.2 !! k = None) ∧
  (∀ k, k ∉ l.*1 →
     getattr acc'.1.1 k = getattr acc.1.1 k ∧ acc'.1.2 !! k = acc.1.2 !! k ∧
     acc'.2 !! k = acc.2 !! k).
Proof.
  induction l as [|item l IH]; intros acc Hall Hnd Htr Hpend; simpl.
  { split; [done|]. split; [|done]. intros ?? H. by apply elem_of_nil in H. }
  apply Forall_cons in Hall as [Hitem Hall].
  rewrite fmap_cons in Hnd. apply NoDup_cons in Hnd as [Hfresh Hnd].
  destruct (diff_step_inv t0 acc item (l.*1) Hitem Hfresh Htr Hpend)
    as (Htr1 & Hpend1 & Hhead & Hframe1).
  destruct (IH (diff_step acc item) Hall Hnd Htr1 Hpend1) as (Htr' & Hval & Hframe).
  split; [done|]. split.
  - intros k v [<-|Hin]%elem_of_cons.
    + simpl in *. destruct (Hframe _ Hfresh) as (E1 & E2 & _).
      rewrite E1, E2. exact Hhead.
    + assert (k ≠ item.1) as Hk.
      { intros ->. apply Hfresh. apply list_elem_of_fmap. by exists (item.1, v). }
      specialize (Hval k v Hin). destruct (Hframe1 k Hk) as (E & _).
      rewrite E in Hval. exact Hval.
  - intros k Hk. apply not_elem_of_cons in Hk as [Hk1 Hk2].
    destruct (Hframe k Hk2) as (-> & -> & ->). by apply Hframe1.
Qed.

Lemma dump_field_keys {A} key (inj : A → value) o k :
  k ∈ (dump_field key inj o).*1 → k = key.
Proof.
  destruct o; simpl; [|by intros ?%elem_of_nil].
  by intros ->%list_elem_of_singleton.
Qed.

Lemma model_dump_keys (d : TaskUpdate) k :
  k ∈ (model_dump_exclude_unset d).*1 → k ∈ updatable.
Proof.
  unfold model_dump_exclude_unset. rewrite !fmap_app, !elem_of_app.
  intros [H|[H|[H|[H|H]]]]; apply dump_field_keys in H; subst k;
    unfold updatable; repeat constructor.
Qed.

Lemma model_dump_NoDup (d : TaskUpdate) : NoDup (model_dump_exclude_unset d).*1.
Proof.
  unfold model_dump_exclude_unset, dump_field.
  destruct d as [[a|] [b|] [c|] [e|] [f|]]; simpl;
    apply (bool_decide_unpack _); vm_compute; exact I.
Qed.

Lemma model_dump_settable {column : TimestampColumn} (d : TaskUpdate) :
  Forall settable (model_dump_exclude_unset d).
Proof.
  unfold model_dump_exclude_unset, dump_field.
  rewrite !Forall_app.
  destruct d as [a b c e f]; simpl.
  repeat split.
  - destruct a; [apply Forall_singleton, settable_title | apply Forall_nil_2].
  - destruct b; [apply Forall_singleton, settable_description | apply Forall_nil_2].
  - destruct c; [apply Forall_singleton, settable_priority | apply Forall_nil_2].
  - destruct e; [apply Forall_singleton, settable_reminder_time | apply Forall_nil_2].
  - destruct f; [apply Forall_singleton, settable_reminder_config | apply Forall_nil_2].
Qed.

Lemma of_str_inj a b : of_str a = of_str b → a = b.
Proof. destruct a, b; simpl; congruence. Qed.
Lemma of_datetime_inj a b : of_datetime a = of_datetime b → a = b.
Proof. destruct a, b; simpl; congruence. Qed.
Lemma of_dict_inj a b : of_dict a = of_dict b → a = b.
Proof. destruct a, b; simpl; congruence. Qed.

Lemma stored_datetime_inj (a b : option timestamp) :
  of_datetime (naive <$> a) = of_datetime (naive <$> b) → a = b.
Proof. destruct a, b; simpl; unfold naive; congruence. Qed.

Lemma diff_loop_tracks {column : TimestampColumn} (d : TaskUpdate) (t : Task) :
  let acc := diff_loop (model_dump_exclude_unset d) t in
  (∀ k, tracks t acc k) ∧
  (∀ k v, (k, v) ∈ model_dump_exclude_unset d →
     if py_ne (getattr t k) v
     then getattr acc.1.1 k = as_stored v ∧ acc.1.2 !! k = Some v
     else getattr acc.1.1 k = getattr t k ∧ acc.1.2 !! k = None) ∧
  (∀ k, k ∉ (model_dump_exclude_unset d).*1 →
     getattr acc.1.1 k = getattr t k ∧ acc.1.2 !! k = None).
Proof.
  destruct (foldl_diff_step_inv t (model_dump_exclude_unset d) (t, ∅, ∅)
              (model_dump_settable d) (model_dump_NoDup d)) as (Htr & Hval & Hframe).
  - intros k. left. simpl. by rewrite !lookup_empty.
  - intros k _. apply lookup_empty.
  - split; [done|]. split; [done|]. intros k Hk.
    destruct (Hframe k Hk) as (? & E & _). split; [done|].
    unfold diff_loop. rewrite E. apply lookup_empty.
Qed.

Ltac dumped_here :=
  unfold model_dump_exclude_unset; rewrite !elem_of_app;
  match goal with
  | H : _ = Some _ |- _ => rewrite H
  end; simpl; rewrite !list_elem_of_singleton; tauto.

Ltac not_dumped :=
  let H := fresh in
  intros H; unfold model_dump_exclude_unset in H;
  rewrite !fmap_app, !elem_of_app in H;
  match goal with
  | E : _ = None |- _ => rewrite E in H
  end;
  destruct H as [H|[H|[H|[H|H]]]];
  solve [ by apply elem_of_nil in H | apply dump_field_keys in H; discriminate H ].

Lemma not_updatable k :
  bool_decide (k ∈ updatable) = false →
  ∀ d, k ∉ (model_dump_exclude_unset d).*1.
Proof.
  intros Hk d Hin. apply model_dump_keys in Hin.
  by rewrite (bool_decide_eq_true_2 _ Hin) in Hk.
Qed.

(** The loop leaves each attribute that was submitted at the value the
    column takes for it, and every other attribute as it was.  A
    submitted configuration that compares equal to the old one is not
    assigned. *)
Lemma diff_loop_fields {column : TimestampColumn} (d : TaskUpdate) (t : Task) :
  let t' := (diff_loop (model_dump_exclude_unset d) t).1.1 in
  id t' = id t ∧ user_id t' = user_id t ∧ is_complete t' = is_complete t ∧
  created_at t' = created_at t ∧ updated_at t' = updated_at t ∧
  title t' = default (title t) (up_title d) ∧
  description t' = default (description t) (up_description d) ∧
  priority t' = default (priority t) (up_priority d) ∧
  reminder_time t' =
    match up_reminder_time d with
    | Some new => column_reading <$> new
    | None => reminder_time t
    end ∧
  reminder_config t' =
    match up_reminder_config d with
    | Some new => if py_ne (of_dict (reminder_config t)) (of_dict new)
                  then new else reminder_config t
    | None => reminder_config t
    end.
Proof.
  destruct (diff_loop_tracks d t) as (_ & Hval & Hframe). simpl.
  set (t' := (diff_loop (model_dump_exclude_unset d) t).1.1) in *.
  destruct (Hframe "id" (not_updatable "id" eq_refl d)) as [H1 _].
  destruct (Hframe "user_id" (not_updatable "user_id" eq_refl d)) as [H2 _].
  destruct (Hframe "is_complete" (not_updatable "is_complete" eq_refl d)) as [H3 _].
  destruct (Hframe "created_at" (not_updatable "created_at" eq_refl d)) as [H4 _].
  destruct (Hframe "updated_at" (not_updatable "updated_at" eq_refl d)) as [H5 _].
  change (VInt (id t') = VInt (id t)) in H1.
  change (VInt (user_id t') = VInt (user_id t)) in H2.
  change (VBool (is_complete t') = VBool (is_complete t)) in H3.
  change (VDateTime (naive (created_at t')) = VDateTime (naive (created_at t))) in H4.
  change (VDateTime (naive (updated_at t')) = VDateTime (naive (updated_at t))) in H5.
  unfold naive in H4, H5.
  repeat (split; [congruence|]).
  split; [|split; [|split; [|split]]].
  - destruct (up_title d) as [x|] eqn:E; simpl; apply of_str_inj.
    + assert (("title", of_str x) ∈ model_dump_exclude_unset d) as Hin by dumped_here.
      apply Hval in Hin. change (getattr t "title") with (of_str (title t)) in Hin.
      change (getattr t' "title") with (of_str (title t')) in Hin.
      destruct (py_ne _ _) eqn:Hne; destruct Hin as [-> _].
      * apply as_stored_of_str.
      * apply negb_false_iff, py_eq_of_str in Hne. by subst.
    + apply (Hframe "title"). not_dumped.
  - destruct (up_description d) as [x|] eqn:E; simpl; apply of_str_inj.
    + assert (("description", of_str x) ∈ model_dump_exclude_unset d) as Hin
        by dumped_here.
      apply Hval in Hin.
      change (getattr t "description") with (of_str (description t)) in Hin.
      change (getattr t' "description") with (of_str (description t')) in Hin.
      destruct (py_ne _ _) eqn:Hne; destruct Hin as [-> _].
      * apply as_stored_of_str.
      * apply negb_false_iff, py_eq_of_str in Hne. by subst.
    + apply (Hframe "description"). not_dumped.
  - destruct (up_priority d) as [x|] eqn:E; simpl; apply of_str_inj.
    + assert (("priority", of_str x) ∈ model_dump_exclude_unset d) as Hin
        by dumped_here.
      apply Hval in Hin.
      change (getattr t "priority") with (of_str (priority t)) in Hin.
      change (getattr t' "priority") with (of_str (priority t')) in Hin.
      destruct (py_ne _ _) eqn:Hne; destruct Hin as [-> _].
      * apply as_stored_of_str.
      * apply negb_false_iff, py_eq_of_str in Hne. by subst.
    + apply (Hframe "priority"). not_dumped.
  - destruct (up_reminder_time d) as [x|] eqn:E; simpl.
    + assert (("reminder_time", of_datetime x) ∈ model_dump_exclude_unset d) as Hin
        by dumped_here.
      apply Hval in Hin.
      change (getattr t "reminder_time")
        with (of_datetime (naive <$> reminder_time t)) in Hin.
      change (getattr t' "reminder_time")
        with (of_datetime (naive <$> reminder_time t')) in Hin.
      destruct (py_ne _ _) eqn:Hne; destruct Hin as [Hin _].
      * rewrite as_stored_of_datetime in Hin. by apply stored_datetime_inj in Hin.
      * apply negb_false_iff, py_eq_stored_datetime in Hne. subst x.
        apply stored_datetime_inj in Hin. rewrite Hin.
        by destruct (reminder_time t).
    + destruct (Hframe "reminder_time") as [H _]; [not_dumped|].
      change (of_datetime (naive <$> reminder_time t')
              = of_datetime (naive <$> reminder_time t)) in H.
      by apply stored_datetime_inj in H.
  - destruct (up_reminder_config d) as [x|] eqn:E; simpl; apply of_dict_inj.
    + assert (("reminder_config", of_dict x) ∈ model_dump_exclude_unset d) as Hin
        by dumped_here.
      apply Hval in Hin.
      change (getattr t "reminder_config") with (of_dict (reminder_config t)) in Hin.
      change (getattr t' "reminder_config") with (of_dict (reminder_config t')) in Hin.
      destruct (py_ne _ _) eqn:Hne; destruct Hin as [-> _]; [|done].
      apply as_stored_of_dict.
    + apply (Hframe "reminder_config"). not_dumped.
Qed.

(** ** What an update does *)

(** One description of [update_task] on an existing task of the caller,
    from which the properties below are read off: the row that is
    committed, and the events handed to the publisher, whatever the
    publisher does with them. *)
Lemma update_task_run {PS} {column : TimestampColumn} (publisher : EventPublisher PS) (task_id : Z)
    (d : TaskUpdate) (current_user : User) (w : World PS) (t : Task) :
  has_task w task_id t → user_id t = u_id current_user →
  let acc := diff_loop (model_dump_exclude_unset d) t in
  let t' := set_updated_at (clock w) acc.1.1 in
  let r := update_task publisher task_id d current_user w in
  if not_null_ok t' then
    r.1 = Ok t' ∧ db r.2 = with_tasks (insert task_id t') (db w) ∧
    emitted (update_task publisher task_id d current_user) w =
      (if bool_decide (acc.1.2 ≠ ∅) then
         [TaskUpdatedEvent "/api/tasks" (subject_of task_id)
            (mkTaskUpdatedData task_id (user_id t) acc.1.2 acc.2)]
       else []) ++
      (if bool_decide (is_Some (acc.1.2 !! "reminder_time")) then
         match reminder_time t, reminder_time t' with
         | Some _, None =>
             [ReminderCancelledEvent "/api/tasks" (subject_of task_id)
                (mkReminderCancelledData task_id (user_id t) "reminder_removed"
                                         (clock w + 1))]
         | _, Some scheduled =>
             [TaskReminderScheduledEvent "/api/tasks" (subject_of task_id)
                (mkTaskReminderScheduledData task_id (user_id t) scheduled
                   (_get_notification_channels (reminder_config t')))]
         | None, None => []
         end
       else [])
  else
    r.1 = Raise IntegrityError ∧ db r.2 = db w ∧
    emitted (update_task publisher task_id d current_user) w = [].
Proof.
  intros [Hget Hid] Hown.
  destruct (diff_loop_fields d t) as (Hi & Hu & _).
  unfold emitted. unfold_run. rewrite Hget.
  rewrite bool_decide_eq_false_2 by (intros ?; congruence).
  destruct (diff_loop (model_dump_exclude_unset d) t) as [[t1 ch] pv] eqn:Hloop.
  simpl in Hi, Hu.
  cbn [fst snd db clock pub_state sent log]. unfold session_commit_task.
  cbn [fst snd db clock pub_state sent log].
  destruct (not_null_ok (set_updated_at (clock w) t1)) eqn:Hnn;
    cbn [fst snd db clock pub_state sent log id user_id reminder_time
         reminder_config set_updated_at].
  2: { rewrite drop_all. done. }
  rewrite Hi, Hu, Hid.
  destruct (bool_decide (ch ≠ ∅)); [run_publish|];
  (destruct (bool_decide (is_Some (ch !! "reminder_time")));
   [destruct (reminder_time t), (reminder_time t1);
    cbn [truthy of_datetime andb negb fmap option_fmap option_map]; try run_publish|]);
  cbn [fst snd db clock pub_state sent log];
  (split; [reflexivity|split; [reflexivity|]]); emitted_list; reflexivity.
Qed.

(** The loop records nothing under a key that was not submitted. *)
Lemma diff_loop_unsent {column : TimestampColumn} (d : TaskUpdate) (t : Task) k :
  k ∉ (model_dump_exclude_unset d).*1 →
  (diff_loop (model_dump_exclude_unset d) t).1.2 !! k = None.
Proof.
  intros Hk.
  destruct (foldl_diff_step_inv t (model_dump_exclude_unset d) (t, ∅, ∅)
              (model_dump_settable d) (model_dump_NoDup d)) as (_ & _ & Hframe).
  - intros k'. left. simpl. by rewrite !lookup_empty.
  - intros k' _. apply lookup_empty.
  - destruct (Hframe k Hk) as (_ & H & _). unfold diff_loop. rewrite H. apply lookup_empty.
Qed.

Lemma updatable_tracked k : k ∈ updatable → k ∈ tracked_columns ∧ k ≠ "updated_at".
Proof.
  unfold updatable. rewrite !elem_of_cons, elem_of_nil.
  intros [-> | [-> | [-> | [-> | [-> | []]]]]];
    (split; [by apply (bool_decide_unpack _); vm_compute | discriminate]).
Qed.

Lemma tracked_not_updated_at k : k ∈ tracked_columns → k ≠ "updated_at".
Proof.
  unfold tracked_columns. rewrite !elem_of_cons, elem_of_nil.
  intros H ->. repeat (destruct H as [H|H]; [discriminate H|]). done.
Qed.

(** A request without a timezone-aware [reminder_time] submits only
    values that a column stores as they are. *)
Lemma dump_as_stored {column : TimestampColumn} (d : TaskUpdate) k v :
  timezone_free d → (k, v) ∈ model_dump_exclude_unset d → as_stored v = v.
Proof.
  intros Hfree. unfold model_dump_exclude_unset, dump_field.
  rewrite !elem_of_app. intros [H|[H|[H|[H|H]]]].
  - destruct (up_title d); [|by apply elem_of_nil in H].
    apply list_elem_of_singleton in H as [= _ ->]. apply as_stored_of_str.
  - destruct (up_description d); [|by apply elem_of_nil in H].
    apply list_elem_of_singleton in H as [= _ ->]. apply as_stored_of_str.
  - destruct (up_priority d); [|by apply elem_of_nil in H].
    apply list_elem_of_singleton in H as [= _ ->]. apply as_stored_of_str.
  - destruct (up_reminder_time d) as [x|] eqn:E; [|by apply elem_of_nil in H].
    apply list_elem_of_singleton in H as [= _ ->].
    apply as_stored_timezone_free. intros r ->. by apply Hfree.
  - destruct (up_reminder_config d); [|by apply elem_of_nil in H].
    apply list_elem_of_singleton in H as [= _ ->]. apply as_stored_of_dict.
Qed.

(** What the loop records under a key is the value submitted under it. *)
Lemma diff_loop_recorded {column : TimestampColumn} (d : TaskUpdate) (t : Task) k v :
  (diff_loop (model_dump_exclude_unset d) t).1.2 !! k = Some v →
  (k, v) ∈ model_dump_exclude_unset d ∧ py_ne (getattr t k) v = true.
Proof.
  intros Hk. destruct (diff_loop_tracks d t) as (_ & Hval & _). simpl in Hval.
  destruct (decide (k ∈ (model_dump_exclude_unset d).*1)) as [Hin|Hn].
  - apply list_elem_of_fmap in Hin as ([k' v'] & -> & Hin). simpl in *.
    specialize (Hval _ _ Hin).
    destruct (py_ne (getattr t k') v') eqn:Hne; destruct Hval as [_ E];
      rewrite E in Hk; [|done].
    injection Hk as <-. by split.
  - by rewrite (diff_loop_unsent d t k Hn) in Hk.
Qed.

(** The dictionaries built by the loop, read against the row the loop
    started from and the row that is committed. *)
Lemma diff_loop_exact {column : TimestampColumn} (d : TaskUpdate) (t : Task)
    (now : timestamp) :
  timezone_free d →
  let acc := diff_loop (model_dump_exclude_unset d) t in
  diff_exact tracked_columns t (set_updated_at now acc.1.1)
             (mkTaskUpdatedData (id t) (user_id t) acc.1.2 acc.2).
Proof.
  intros Hfree.
  destruct (diff_loop_tracks d t) as (Htr & _ & _).
  pose proof (diff_loop_recorded d t) as Hrec. simpl.
  set (acc := diff_loop (model_dump_exclude_unset d) t) in *.
  assert (∀ c, is_Some (acc.1.2 !! c) → c ∈ tracked_columns ∧ c ≠ "updated_at") as Hin.
  { intros c [v Hv]. apply updatable_tracked, (model_dump_keys d).
    apply Hrec in Hv as [Hv _]. apply list_elem_of_fmap. by exists (c, v). }
  assert (∀ c v, acc.1.2 !! c = Some v →
                 getattr acc.1.1 c = v ∧ getattr t c ≠ v) as Hnew.
  { intros c v Hv. destruct (Hrec c v Hv) as [Hdump Hne].
    split; [|by apply py_ne_neq].
    destruct (Htr c) as [(E & _) | (v' & E & _ & _ & Hget)]; [congruence|].
    rewrite Hv in E. injection E as <-.
    by rewrite Hget, (dump_as_stored d c v Hfree Hdump). }
  unfold diff_exact. cbn [tu_changes tu_previous_values].
  split; [|split; [|split]].
  - apply set_eq. intros c. rewrite !elem_of_dom.
    destruct (Htr c) as [(-> & -> & _) | (v & -> & -> & _)]; done.
  - intros c. rewrite elem_of_dom. split.
    + intros Hc. destruct (Hin c Hc) as [Hcol Hne]. split; [done|].
      rewrite getattr_set_updated_at by done.
      destruct Hc as [v Hv]. destruct (Hnew c v Hv) as [-> Hdiff]. done.
    + intros [Hcol Hdiff].
      rewrite getattr_set_updated_at in Hdiff by by apply tracked_not_updated_at.
      destruct (Htr c) as [(_ & _ & E) | (v & E & _)]; [congruence | by rewrite E].
  - intros c v Hv. destruct (Hin c (ex_intro _ v Hv)) as [_ Hne].
    rewrite getattr_set_updated_at by done. by destruct (Hnew c v Hv) as [-> _].
  - intros c v Hv.
    destruct (Htr c) as [(_ & E & _) | (v' & _ & E & _)]; congruence.
Qed.

(** When the loop has recorded nothing, the committed row agrees with the
    previous one on every column but [updated_at]. *)
Lemma diff_loop_nothing_recorded {column : TimestampColumn} (d : TaskUpdate)
    (t : Task) (now : timestamp) c :
  (diff_loop (model_dump_exclude_unset d) t).1.2 = ∅ → c ∈ tracked_columns →
  getattr t c = getattr (set_updated_at now (diff_loop (model_dump_exclude_unset d) t).1.1) c.
Proof.
  intros Hch Hc. destruct (diff_loop_tracks d t) as (Htr & _ & _). simpl in Htr.
  rewrite getattr_set_updated_at by by apply tracked_not_updated_at.
  destruct (Htr c) as [(_ & _ & E) | (v & E & _)]; [done|].
  by rewrite Hch, lookup_empty in E.
Qed.

Lemma toggle_exact (t : Task) (now : timestamp) :
  diff_exact tracked_columns t
    (set_updated_at now (set_is_complete (negb (is_complete t)) t))
    (mkTaskUpdatedData (id t) (user_id t)
       {[ "is_complete" := VBool (negb (is_complete t)) ]}
       {[ "is_complete" := VBool (is_complete t) ]}).
Proof.
  unfold diff_exact. cbn [tu_changes tu_previous_values].
  split; [|split; [|split]].
  - by rewrite !dom_singleton_L.
  - intros c. rewrite dom_singleton_L, elem_of_singleton. split.
    + intros ->. split; [by apply (bool_decide_unpack _); vm_compute|].
      cbn. destruct (is_complete t); discriminate.
    + intros [Hcol Hdiff]. unfold tracked_columns in Hcol.
      rewrite !elem_of_cons, elem_of_nil in Hcol.
      repeat (destruct Hcol as [-> | Hcol]; [try done; by destruct Hdiff|]). done.
  - intros c v [<- <-]%lookup_singleton_Some. reflexivity.
  - intros c v [<- <-]%lookup_singleton_Some. reflexivity.
Qed.

(** C1 (amended).  On an existing task of the caller whose row respects
    the NOT NULL columns:

    - an update that submits no timezone-aware [reminder_time] hands the
      publisher at most one [TaskUpdated] event, and none exactly when the
      row left in the database agrees with the row before the request on
      every column other than [updated_at]; the event's [changes] and
      [previous_values] have the same keys, these are exactly the columns
      other than [updated_at] whose value in the row left in the database
      differs from the value before the request, [changes] holds the new
      and [previous_values] the old value of each;

    - a completion toggle hands the publisher exactly one event, a
      [TaskUpdated] event whose dictionaries describe the difference
      between the two rows in the same way.

    ([updated_at] is rewritten by every committed update and toggle and is
    never listed.) *)
Theorem task_updated_event_lists_changed_columns {PS} {column : TimestampColumn}
    (publisher : EventPublisher PS) (task_id : Z) (task_data : TaskUpdate)
    (current_user : User) (w : World PS) (task : Task) :
  has_task w task_id task → user_id task = u_id current_user →
  not_null_ok task = true → timezone_free task_data →
  (let run := update_task publisher task_id task_data current_user in
   ∃ task',
     tasks (db (run w).2) !! task_id = Some task' ∧
     ((filter is_task_updated (emitted run w) = [] ∧
       ∀ c, c ∈ tracked_columns → getattr task c = getattr task' c) ∨
      (∃ data,
         filter is_task_updated (emitted run w)
           = [TaskUpdatedEvent "/api/tasks" (subject_of task_id) data] ∧
         tu_changes data ≠ ∅ ∧
         diff_exact tracked_columns task task' data))) ∧
  (let run := toggle_task publisher task_id current_user in
   ∃ task' data,
     tasks (db (run w).2) !! task_id = Some task' ∧
     emitted run w = [TaskUpdatedEvent "/api/tasks" (subject_of task_id) data] ∧
     diff_exact tracked_columns task task' data).
Proof.
  intros Hhas Hown Hnn Hfree. split.
  - pose proof (update_task_run publisher task_id task_data current_user w task
                  Hhas Hown) as Hrun.
    cbv zeta in Hrun |- *. destruct Hhas as [Hget Hid].
    destruct (not_null_ok _) in Hrun; destruct Hrun as (_ & Hdb & Hev);
      rewrite Hev, Hdb; clear Hev Hdb.
    2: { exists task. split; [done|]. left. done. }
    eexists. split; [apply lookup_insert_eq|].
    rewrite filter_app.
    match goal with
    | |- context [filter _ (if bool_decide (is_Some ?r) then ?l else [])] =>
        assert (filter is_task_updated (if bool_decide (is_Some r) then l else [])
                = []) as ->
    end.
    { case_bool_decide; [|done].
      destruct (reminder_time task), (reminder_time _); reflexivity. }
    rewrite app_nil_r. case_bool_decide as Hch.
    + right. eexists. split; [reflexivity|]. split; [done|].
      rewrite <- Hid at 1. by apply diff_loop_exact.
    + left. split; [done|]. intros c Hc. by apply diff_loop_nothing_recorded.
  - destruct Hhas as [Hget Hid]. unfold emitted. unfold_run. rewrite Hget.
    rewrite bool_decide_eq_false_2 by (intros ?; congruence).
    cbn [fst snd db clock pub_state sent log]. unfold session_commit_task.
    cbn [fst snd db clock pub_state sent log].
    replace (not_null_ok (set_updated_at (clock w)
               (set_is_complete (negb (is_complete task)) task)))
      with true by (by rewrite <- Hnn).
    cbn [fst snd db clock pub_state sent log id user_id is_complete
         set_updated_at set_is_complete].
    run_publish; emitted_list; rewrite Hid;
      (eexists; eexists; split; [apply lookup_insert_eq|]);
      (split; [reflexivity|]); rewrite <- Hid at 1; apply toggle_exact.
Qed.

Lemma task_updated_event_lists_changed_columns_witness :
  (let run := update_task broken_publisher 7 Sample.retitle Sample.alice in
   ∃ task',
     tasks (db (run (Sample.world ())).2) !! 7 = Some task' ∧
     ((filter is_task_updated (emitted run (Sample.world ())) = [] ∧
       ∀ c, c ∈ tracked_columns → getattr Sample.milk c = getattr task' c) ∨
      (∃ data,
         filter is_task_updated (emitted run (Sample.world ()))
           = [TaskUpdatedEvent "/api/tasks" (subject_of 7) data] ∧
         tu_changes data ≠ ∅ ∧
         diff_exact tracked_columns Sample.milk task' data))) ∧
  (let run := toggle_task broken_publisher 7 Sample.alice in
   ∃ task' data,
     tasks (db (run (Sample.world ())).2) !! 7 = Some task' ∧
     emitted run (Sample.world ())
       = [TaskUpdatedEvent "/api/tasks" (subject_of 7) data] ∧
     diff_exact tracked_columns Sample.milk task' data).
Proof.
  apply (task_updated_event_lists_changed_columns broken_publisher 7
           Sample.retitle Sample.alice (Sample.world ()) Sample.milk
           (conj eq_refl eq_refl) eq_refl eq_refl).
  intros x. discriminate.
Defined.

(** C1, as stated, fails: after the title of the sample task is changed,
    the committed row differs from the previous one in [title] and in
    [updated_at], while the event lists [title] only. *)
Lemma changed_columns_omit_updated_at :
  let run := update_task reliable_publisher 7 Sample.retitle Sample.alice in
  ∃ data post,
    emitted run (Sample.world ()) = [TaskUpdatedEvent "/api/tasks" "task/7" data] ∧
    tasks (db (run (Sample.world ())).2) !! 7 = Some post ∧
    getattr Sample.milk "updated_at" ≠ getattr post "updated_at" ∧
    ("updated_at" ∉ dom (tu_changes data)) ∧
    ¬ diff_exact task_columns Sample.milk post data.
Proof.
  exists (mkTaskUpdatedData 7 1 {[ "title" := VStr "Buy oat milk" ]}
                                {[ "title" := VStr "Buy milk" ]}).
  exists (mkTask 7 1 (Some "Buy oat milk") (Some "") (Some "medium") false 10 100
                 (Some 500) None).
  assert ("updated_at" ∉ dom ({[ "title" := VStr "Buy oat milk" ]} : gmap string value))
    as Hnot by (rewrite dom_singleton_L, elem_of_singleton; discriminate).
  split; [vm_compute; reflexivity|]. split; [vm_compute; reflexivity|].
  split; [vm_compute; discriminate|]. split; [exact Hnot|].
  intros (_ & Hkeys & _). apply Hnot, Hkeys. split.
  - apply (bool_decide_unpack _). vm_compute. exact I.
  - vm_compute. discriminate.
Qed.
(** ** Reminder transitions *)

Lemma commit_accepts_update {column : TimestampColumn} (d : TaskUpdate) (t : Task)
    (now : timestamp) :
  not_null_ok t = true → keeps_required_columns d →
  not_null_ok (set_updated_at now (diff_loop (model_dump_exclude_unset d) t).1.1) = true.
Proof.
  intros Hok (Ht & Hd & Hp).
  destruct (diff_loop_fields d t) as (_ & _ & _ & _ & _ & Et & Ed & Ep & _).
  unfold not_null_ok in *. cbn [title description priority set_updated_at].
  rewrite Et, Ed, Ep.
  rewrite !andb_true_iff, !bool_decide_eq_true in *.
  destruct Hok as [[? ?] ?].
  destruct (up_title d) as [[?|]|], (up_description d) as [[?|]|],
    (up_priority d) as [[?|]|]; simpl; try done.
Qed.

Lemma reminder_time_recorded {column : TimestampColumn} (d : TaskUpdate) (t : Task) new :
  up_reminder_time d = Some new →
  py_ne (of_datetime (naive <$> reminder_time t)) (of_datetime new) = true →
  is_Some ((diff_loop (model_dump_exclude_unset d) t).1.2 !! "reminder_time").
Proof.
  intros Hsent Hne.
  destruct (diff_loop_tracks d t) as (_ & Hval & _). simpl in Hval.
  assert (("reminder_time", of_datetime new) ∈ model_dump_exclude_unset d) as Hin
    by dumped_here.
  apply Hval in Hin.
  change (getattr t "reminder_time") with (of_datetime (naive <$> reminder_time t)) in Hin.
  rewrite Hne in Hin. destruct Hin as [_ ->]. by eexists.
Qed.

Lemma filter_updated_part (P : Event → bool) (c : bool) src subj data rest :
  P (TaskUpdatedEvent src subj data) = false →
  filter P ((if c then [TaskUpdatedEvent src subj data] else []) ++ rest) = filter P rest.
Proof.
  intros HP. destruct c; [|done].
  change ([TaskUpdatedEvent src subj data] ++ rest)
    with (TaskUpdatedEvent src subj data :: rest).
  apply filter_cons_False. rewrite HP. intros [].
Qed.

(** C2 (amended).  Take an update of an existing task of the caller that
    the database accepts (the stored row has its required columns and the
    request does not null any of them) and that sends a [reminder_time]
    which compares unequal to the stored one.  The update is committed,
    with the submitted time in the column.  If the reminder time goes from
    a value to null, exactly one [ReminderCancelled] event with reason
    "reminder_removed" is handed to the publisher and no
    [ReminderScheduled]; if it goes from null to a value, or from one value
    to another, exactly one [ReminderScheduled] event for the new time and
    no [ReminderCancelled]. *)
Theorem reminder_time_change_emits_one_event {PS} {column : TimestampColumn}
    (publisher : EventPublisher PS) (task_id : Z) (task_data : TaskUpdate)
    (current_user : User) (w : World PS) (task : Task) (new : option datetime) :
  has_task w task_id task → user_id task = u_id current_user →
  not_null_ok task = true → keeps_required_columns task_data →
  up_reminder_time task_data = Some new →
  py_ne (of_datetime (naive <$> reminder_time task)) (of_datetime new) = true →
  let run := update_task publisher task_id task_data current_user in
  let events := emitted run w in
  ∃ task',
    (run w).1 = Ok task' ∧ tasks (db (run w).2) !! task_id = Some task' ∧
    reminder_time task' = column_reading <$> new ∧
    match reminder_time task, new with
    | Some _, None =>
        filter is_reminder_cancelled events =
          [ReminderCancelledEvent "/api/tasks" (subject_of task_id)
             (mkReminderCancelledData task_id (user_id task) "reminder_removed"
                                      (clock w + 1))] ∧
        filter is_reminder_scheduled events = []
    | _, Some scheduled =>
        filter is_reminder_scheduled events =
          [TaskReminderScheduledEvent "/api/tasks" (subject_of task_id)
             (mkTaskReminderScheduledData task_id (user_id task)
                (column_reading scheduled)
                (_get_notification_channels (reminder_config task')))] ∧
        filter is_reminder_cancelled events = []
    | None, None => False
    end.
Proof.
  intros Hhas Hown Hok Hkeep Hsent Hne.
  pose proof (update_task_run publisher task_id task_data current_user w task
                Hhas Hown) as Hrun.
  cbv zeta in Hrun. rewrite commit_accepts_update in Hrun by done.
  destruct Hrun as (Hres & Hdb & Hev). cbv zeta. rewrite Hev.
  rewrite !filter_updated_part by done.
  rewrite (bool_decide_eq_true_2 _ (reminder_time_recorded _ _ _ Hsent Hne)).
  destruct (diff_loop_fields task_data task) as (_ & _ & _ & _ & _ & _ & _ & _ & Er & _).
  cbv zeta in Er. rewrite Hsent in Er.
  eexists. split; [exact Hres|]. split; [rewrite Hdb; apply lookup_insert_eq|].
  cbn [reminder_time reminder_config set_updated_at]. rewrite Er.
  split; [done|].
  destruct (reminder_time task), new; done.
Qed.

Lemma reminder_time_change_emits_one_event_witness :
  let run := update_task scripted_publisher 7 Sample.drop_reminder Sample.alice in
  let events := emitted run (Sample.world [Raised "timeout"]) in
  ∃ task',
    (run (Sample.world [Raised "timeout"])).1 = Ok task' ∧
    tasks (db (run (Sample.world [Raised "timeout"])).2) !! 7 = Some task' ∧
    reminder_time task' = None ∧
    filter is_reminder_cancelled events =
      [ReminderCancelledEvent "/api/tasks" (subject_of 7)
         (mkReminderCancelledData 7 1 "reminder_removed" 101)] ∧
    filter is_reminder_scheduled events = [].
Proof.
  apply (reminder_time_change_emits_one_event scripted_publisher 7
           Sample.drop_reminder Sample.alice (Sample.world [Raised "timeout"])
           Sample.milk None (conj eq_refl eq_refl) eq_refl eq_refl).
  - repeat split; discriminate.
  - reflexivity.
  - reflexivity.
Defined.

(** C2, as stated, fails: the sample task has a reminder, and a request
    that sends null for its [reminder_time] and for its [title] is refused
    by the database when the row is committed; the handler raises and no
    [ReminderCancelled] event is handed to the publisher. *)
Lemma nulled_title_cancels_no_reminder :
  let run := update_task reliable_publisher 7 Sample.null_title_and_reminder
               Sample.alice in
  has_task (Sample.world ()) 7 Sample.milk ∧
  user_id Sample.milk = u_id Sample.alice ∧
  reminder_time Sample.milk = Some 500 ∧
  up_reminder_time Sample.null_title_and_reminder = Some None ∧
  (run (Sample.world ())).1 = Raise IntegrityError ∧
  filter is_reminder_cancelled (emitted run (Sample.world ())) = [].
Proof. vm_compute. repeat split; reflexivity. Qed.
(** ** Channels *)

Lemma get_notification_channels_eq (reminder_config : option dict) :
  _get_notification_channels reminder_config = channels_or_email reminder_config.
Proof.
  unfold _get_notification_channels, channels_or_email.
  destruct reminder_config as [d|]; [|done]. simpl.
  case_bool_decide as Hd; simpl.
  - by destruct (d !! "channels").
  - subst d. by rewrite lookup_empty.
Qed.

(** What [create_task] does, for every publisher. *)
Lemma create_task_run {PS} {column : TimestampColumn} (publisher : EventPublisher PS)
    (data : TaskCreate) (current_user : User) (w : World PS) :
  let new_id := task_seq (db w) in
  let t := mkTask new_id (u_id current_user) (Some (c_title data))
                  (Some (c_description data)) (Some (c_priority data)) false
                  (clock w) (clock w + 1)
                  (column_reading <$> c_reminder_time data) (c_reminder_config data) in
  let r := create_task publisher data current_user w in
  r.1 = Ok t ∧
  db r.2 = mkDb (<[new_id := t]> (tasks (db w))) (users (db w))
                (task_seq (db w) + 1) (user_seq (db w)) ∧
  emitted (create_task publisher data current_user) w =
    TaskCreatedEvent "/api/tasks" (subject_of new_id)
      (mkTaskCreatedData new_id (u_id current_user) (Some (c_title data))
                         (Some (c_description data)) (Some (c_priority data)))
    :: match c_reminder_time data with
       | Some scheduled =>
           [TaskReminderScheduledEvent "/api/tasks" (subject_of new_id)
              (mkTaskReminderScheduledData new_id (u_id current_user)
                 (column_reading scheduled)
                 (_get_notification_channels (c_reminder_config data)))]
       | None => []
       end.
Proof.
  unfold emitted. unfold_run. unfold session_commit_new_task.
  cbn [fst snd db clock pub_state sent log not_null_ok title description priority
       id user_id reminder_time reminder_config tasks users task_seq user_seq].
  replace (not_null_ok _) with true by reflexivity.
  cbn [fst snd db clock pub_state sent log id user_id title description
       priority reminder_time reminder_config].
  run_publish; (destruct (c_reminder_time data);
                cbn [fmap option_fmap option_map]; [run_publish|]);
    cbn [fst snd db clock pub_state sent log];
    (split; [reflexivity|split; [reflexivity|]]); emitted_list; reflexivity.
Qed.

(** C10.  The channel helper returns whatever is stored under "channels",
    unvalidated: for the configuration [{"channels": []}] it returns the
    empty list, and creating a task with a reminder time and that
    configuration hands the publisher a [ReminderScheduled] event whose
    channel list is empty.  The ["email"] default is the result when the
    configuration is absent, is the empty dictionary, or has no "channels"
    key. *)
Theorem channels_are_passed_on_verbatim :
  (∀ (d : dict) (channels : json),
     d !! "channels" = Some channels →
     _get_notification_channels (Some d) = channels) ∧
  _get_notification_channels (Some {[ "channels" := JArr [] ]}) = JArr [] ∧
  _get_notification_channels None = JArr [JStr "email"] ∧
  _get_notification_channels (Some ∅) = JArr [JStr "email"] ∧
  (∀ d : dict, d !! "channels" = None →
     _get_notification_channels (Some d) = JArr [JStr "email"]) ∧
  (∀ PS (column : TimestampColumn) (publisher : EventPublisher PS)
     (title description priority : string)
     (scheduled : datetime) (current_user : User) (w : World PS),
     TaskReminderScheduledEvent "/api/tasks" (subject_of (task_seq (db w)))
       (mkTaskReminderScheduledData (task_seq (db w)) (u_id current_user)
                                    (column_reading scheduled) (JArr []))
     ∈ emitted (create_task (column := column) publisher
                  (mkTaskCreate title description priority (Some scheduled)
                                (Some {[ "channels" := JArr [] ]}))
                  current_user) w).
Proof.
  split; [|split; [|split; [|split; [|split]]]].
  - intros d channels Hd. rewrite get_notification_channels_eq. simpl. by rewrite Hd.
  - reflexivity.
  - reflexivity.
  - reflexivity.
  - intros d Hd. rewrite get_notification_channels_eq. simpl. by rewrite Hd.
  - intros PS column publisher title description priority scheduled current_user w.
    destruct (create_task_run publisher
                (mkTaskCreate title description priority (Some scheduled)
                              (Some {[ "channels" := JArr [] ]}))
                current_user w) as (_ & _ & ->).
    cbn [c_reminder_time c_reminder_config].
    apply elem_of_cons. right. apply list_elem_of_singleton. reflexivity.
Qed.

Lemma channels_are_passed_on_verbatim_witness :
  _get_notification_channels (Some {[ "channels" := JStr "pager"; "sound" := JBool true ]})
    = JStr "pager" ∧
  _get_notification_channels (Some {[ "sound" := JBool true ]}) = JArr [JStr "email"].
Proof.
  split.
  - apply (proj1 channels_are_passed_on_verbatim). reflexivity.
  - apply (proj1 (proj2 (proj2 (proj2 (proj2 channels_are_passed_on_verbatim))))).
    reflexivity.
Defined.





(** ** Updates that change nothing *)

Lemma diff_loop_noop {column : TimestampColumn} (l : list (string * value)) (t : Task)
    ch pv :
  (∀ k v, (k, v) ∈ l → py_ne (getattr t k) v = false) →
  foldl diff_step (t, ch, pv) l = (t, ch, pv).
Proof.
  induction l as [|[k v] l IH]; intros Hall; [done|]. simpl.
  rewrite (Hall k v) by (by apply elem_of_cons; left).
  apply IH. intros k' v' Hin. apply Hall. by apply elem_of_cons; right.
Qed.

(** C7 (amended).  An update of an existing task of the caller whose
    submitted fields all compare equal to the stored values, as the
    handler compares them (a reminder time submitted with a UTC offset
    never does), hands nothing to the publisher, in particular no
    [TaskUpdated] event, and changes no column of the stored row other than
    [updated_at]; the row is nevertheless written, with [updated_at] set to
    the current time. *)
Theorem noop_update_touches_only_updated_at {PS} {column : TimestampColumn}
    (publisher : EventPublisher PS) (task_id : Z) (task_data : TaskUpdate)
    (current_user : User) (w : World PS) (task : Task) :
  has_task w task_id task → user_id task = u_id current_user →
  (∀ k v, (k, v) ∈ model_dump_exclude_unset task_data →
          py_eq (getattr task k) v = true) →
  let run := update_task publisher task_id task_data current_user in
  emitted run w = [] ∧
  ∃ task', tasks (db (run w).2) !! task_id = Some task' ∧
           (∀ c, c ≠ "updated_at" → getattr task' c = getattr task c) ∧
           (not_null_ok task = true →
              (run w).1 = Ok task' ∧ task' = set_updated_at (clock w) task).
Proof.
  intros Hhas Hown Hsame run. subst run.
  pose proof (update_task_run publisher task_id task_data current_user w task
                Hhas Hown) as Hrun.
  cbv zeta in Hrun. unfold diff_loop in Hrun.
  rewrite diff_loop_noop in Hrun
    by (intros k v Hin; apply negb_false_iff; by apply Hsame).
  cbn [fst snd] in Hrun.
  change (not_null_ok (set_updated_at (clock w) task)) with (not_null_ok task) in Hrun.
  rewrite lookup_empty in Hrun.
  rewrite (bool_decide_eq_false_2 (∅ ≠ ∅)) in Hrun by (intros H; by apply H).
  rewrite (bool_decide_eq_false_2 (is_Some None)) in Hrun by (by intros [? ?]).
  destruct Hhas as [Hget Hid].
  destruct (not_null_ok task); destruct Hrun as (Hr & Hdb & Hev).
  - split; [done|]. eexists. rewrite Hdb. split; [apply lookup_insert_eq|].
    split; [|done]. intros c Hc. by apply getattr_set_updated_at.
  - split; [done|]. exists task. rewrite Hdb. split; [done|]. split; done.
Qed.

Lemma noop_update_touches_only_updated_at_witness :
  let run := update_task broken_publisher 7 Sample.same_title Sample.alice in
  emitted run (Sample.world ()) = [] ∧
  ∃ task', tasks (db (run (Sample.world ())).2) !! 7 = Some task' ∧
           (∀ c, c ≠ "updated_at" → getattr task' c = getattr Sample.milk c) ∧
           (not_null_ok Sample.milk = true →
              (run (Sample.world ())).1 = Ok task' ∧
              task' = set_updated_at 100 Sample.milk).
Proof.
  apply (noop_update_touches_only_updated_at broken_publisher 7 Sample.same_title
           Sample.alice (Sample.world ()) Sample.milk (conj eq_refl eq_refl) eq_refl).
  intros k v Hin. apply list_elem_of_singleton in Hin.
  injection Hin as -> ->. reflexivity.
Defined.

(** C7, as stated, fails: sending the sample task its own title again
    changes the stored row, whose [updated_at] moves from 10 to 100. *)
Lemma noop_update_rewrites_the_row :
  ¬ noop_update_is_not_persisted reliable_publisher 7 Sample.same_title Sample.alice
      (Sample.world ()).
Proof.
  intros H. destruct H as [Hrow _].
  - intros task k v Hget Hin. vm_compute in Hget. injection Hget as <-.
    apply list_elem_of_singleton in Hin. injection Hin as -> ->. reflexivity.
  - vm_compute in Hrow. discriminate Hrow.
Qed.

(** ** Publisher failures *)

Ltac run_reliable :=
  cbn [reliable_publisher publish_task_event publish_reminder_event with_pub_state
       fst snd db clock pub_state sent log].

(** C5.  For each of create, update, toggle and delete, and for every
    publisher -- whatever each of its calls does, return or raise -- the
    HTTP response (status code and body) and the database after the
    request are those of the same request served with a publisher that
    never fails: a failed publication neither reaches the client nor undoes
    the committed change. *)
Theorem publisher_failures_stay_local {PS} {column : TimestampColumn}
    (publisher : EventPublisher PS) (w : World PS) (current_user : User) :
  let quiet := with_pub_state () w in
  (∀ task_data,
     let r := create_task publisher task_data current_user w in
     let r0 := create_task reliable_publisher task_data current_user quiet in
     create_task_response r.1 = create_task_response r0.1 ∧ db r.2 = db r0.2) ∧
  (∀ task_id task_data,
     let r := update_task publisher task_id task_data current_user w in
     let r0 := update_task reliable_publisher task_id task_data current_user quiet in
     update_task_response r.1 = update_task_response r0.1 ∧ db r.2 = db r0.2) ∧
  (∀ task_id,
     let r := toggle_task publisher task_id current_user w in
     let r0 := toggle_task reliable_publisher task_id current_user quiet in
     toggle_task_response r.1 = toggle_task_response r0.1 ∧ db r.2 = db r0.2) ∧
  (∀ task_id,
     let r := delete_task publisher task_id current_user w in
     let r0 := delete_task reliable_publisher task_id current_user quiet in
     delete_task_response r.1 = delete_task_response r0.1 ∧ db r.2 = db r0.2).
Proof.
  cbv zeta. split; [|split; [|split]].
  - intros task_data.
    destruct (create_task_run publisher task_data current_user w) as (-> & -> & _).
    destruct (create_task_run reliable_publisher task_data current_user
                (with_pub_state () w)) as (-> & -> & _).
    done.
  - intros task_id task_data. unfold_run. run_reliable.
    destruct (tasks (db w) !! task_id) as [task|]; [|done].
    case_bool_decide; [done|].
    destruct (diff_loop (model_dump_exclude_unset task_data) task) as [[t1 ch] pv].
    unfold session_commit_task. run_reliable.
    destruct (not_null_ok _); [|done]. run_reliable.
    cbn [id user_id reminder_time reminder_config set_updated_at].
    destruct (bool_decide (ch ≠ ∅)); [run_publish|];
      (destruct (bool_decide (is_Some (ch !! "reminder_time")));
       [destruct (reminder_time task), (reminder_time t1);
        cbn [truthy of_datetime andb negb reminder_time set_updated_at
             fmap option_fmap option_map];
        try run_publish|]);
      run_reliable; done.
  - intros task_id. unfold_run. run_reliable.
    destruct (tasks (db w) !! task_id) as [task|]; [|done].
    case_bool_decide; [done|].
    unfold session_commit_task. run_reliable.
    destruct (not_null_ok _); [|done]. run_reliable.
    run_publish; done.
  - intros task_id. unfold_run. run_reliable.
    destruct (tasks (db w) !! task_id) as [task|]; [|done].
    case_bool_decide; [done|]. run_reliable.
    run_publish; (destruct (bool_decide (reminder_time task ≠ None)); [run_publish|]);
      done.
Qed.

(** ** Authentication *)

Lemma lower_production : lower "production" ≠ "development".
Proof. vm_compute. discriminate. Qed.

(** C9.  Unless ENVIRONMENT is set to "development" (in any letter case),
    [get_dev_or_current_user] is [get_current_user]: same result, same
    world.  That result is a user only when the cookie holds a token that
    decodes to a payload whose [user_id] is the id of an existing user; in
    every other case it is an [HTTPException] with status 401; and the
    world is left as it was, so no user is created. *)
Theorem dev_bypass_needs_opt_in {PS} (decode_jwt : string → option dict)
    (hash_password : string → string) (environ : gmap string string)
    (access_token : option string) (w : World PS) :
  ¬ development_opt_in environ →
  get_dev_or_current_user decode_jwt hash_password environ access_token w
    = get_current_user decode_jwt access_token w ∧
  (get_current_user decode_jwt access_token w).2 = w ∧
  ((∃ token payload n user,
      access_token = Some token ∧ decode_jwt token = Some payload ∧
      payload !! "user_id" = Some (JNum n) ∧ users (db w) !! n = Some user ∧
      (get_current_user decode_jwt access_token w).1 = Ok user) ∨
   (∃ detail,
      (get_current_user decode_jwt access_token w).1
        = Raise (HTTPException 401 detail))).
Proof.
  intros Hno.
  assert (lower (getenv environ "ENVIRONMENT" "production") ≠ "development") as Henv.
  { unfold getenv. destruct (environ !! "ENVIRONMENT") as [v|] eqn:E; simpl.
    - intros Hv. apply Hno. by exists v.
    - apply lower_production. }
  split; [|split].
  - unfold get_dev_or_current_user, get_current_user.
    by rewrite (bool_decide_eq_false_2 _ Henv).
  - unfold_run.
    destruct (negb (truthy (of_str access_token))); [done|].
    destruct (negb (truthy (of_dict _))); [done|].
    destruct (negb (json_truthy _)); [done|]. simpl.
    by destruct (match default JNull _ with JNum n => _ | _ => None end).
  - unfold_run.
    destruct access_token as [token|]; simpl; [|right; by eexists].
    case_bool_decide; simpl; [|right; by eexists].
    destruct (decode_jwt token) as [payload|] eqn:Hdec; simpl; [|right; by eexists].
    case_bool_decide; simpl; [|right; by eexists].
    destruct (payload !! "user_id") as [ident|] eqn:Hid; simpl; [|right; by eexists].
    destruct (json_truthy ident); simpl; [|right; by eexists].
    destruct ident as [| | n | | |]; simpl; try (right; by eexists).
    destruct (users (db w) !! n) as [user|] eqn:Hu; simpl; [|right; by eexists].
    left. by exists token, payload, n, user.
Qed.

Lemma dev_bypass_needs_opt_in_witness :
  let environ : gmap string string := {[ "ENVIRONMENT" := "Production" ]} in
  get_dev_or_current_user Sample.tokens (λ p, p) environ None (Sample.world ())
    = get_current_user Sample.tokens None (Sample.world ()) ∧
  (get_current_user Sample.tokens None (Sample.world ())).2 = Sample.world () ∧
  ((∃ token payload n user,
      None = Some token ∧ Sample.tokens token = Some payload ∧
      payload !! "user_id" = Some (JNum n) ∧
      users (db (Sample.world ())) !! n = Some user ∧
      (get_current_user Sample.tokens None (Sample.world ())).1 = Ok user) ∨
   (∃ detail,
      (get_current_user Sample.tokens None (Sample.world ())).1
        = Raise (HTTPException 401 detail))).
Proof.
  apply (dev_bypass_needs_opt_in Sample.tokens (λ p, p)
           {[ "ENVIRONMENT" := "Production" ]} None (Sample.world ())).
  intros [v [Hv Hlow]]. vm_compute in Hv. injection Hv as <-.
  vm_compute in Hlow. discriminate Hlow.
Defined.

(** With ENVIRONMENT=development the two dependencies do differ: a request
    without a cookie is served as user 1. *)
Example dev_bypass_when_opted_in :
  (get_dev_or_current_user Sample.tokens (λ p, p) {[ "ENVIRONMENT" := "DEVELOPMENT" ]}
     None (Sample.world ())).1 = Ok Sample.alice ∧
  (get_current_user Sample.tokens None (Sample.world ())).1
    = Raise (HTTPException 401 "Not authenticated").
Proof. split; vm_compute; reflexivity. Qed.

(** ** Witnesses for the refusals and for deletion *)

Lemma delete_cancels_reminder_once_witness :
  filter is_reminder_cancelled
    (emitted (delete_task broken_publisher 7 Sample.alice) (Sample.world ()))
  = [ReminderCancelledEvent "/api/tasks" (subject_of 7)
       (mkReminderCancelledData 7 1 "task_deleted" 100)].
Proof.
  apply (delete_cancels_reminder_once broken_publisher 7 Sample.alice
           (Sample.world ()) Sample.milk (conj eq_refl eq_refl) eq_refl).
Defined.

Lemma missing_or_foreign_task_is_refused_witness :
  (let u := update_task broken_publisher 99 Sample.retitle Sample.bob (Sample.world ()) in
   let t := toggle_task broken_publisher 99 Sample.bob (Sample.world ()) in
   let d := delete_task broken_publisher 99 Sample.bob (Sample.world ()) in
   status (update_task_response u.1) = 404 ∧ u.2 = Sample.world () ∧
   status (toggle_task_response t.1) = 404 ∧ t.2 = Sample.world () ∧
   status (delete_task_response d.1) = 404 ∧ d.2 = Sample.world ()) ∧
  (let u := update_task broken_publisher 7 Sample.retitle Sample.bob (Sample.world ()) in
   let t := toggle_task broken_publisher 7 Sample.bob (Sample.world ()) in
   let d := delete_task broken_publisher 7 Sample.bob (Sample.world ()) in
   status (update_task_response u.1) = 403 ∧ u.2 = Sample.world () ∧
   status (toggle_task_response t.1) = 403 ∧ t.2 = Sample.world () ∧
   status (delete_task_response d.1) = 403 ∧ d.2 = Sample.world ()).
Proof.
  split.
  - apply (proj1 (missing_or_foreign_task_is_refused broken_publisher 99
                    Sample.retitle Sample.bob (Sample.world ()))).
    reflexivity.
  - apply (proj2 (missing_or_foreign_task_is_refused broken_publisher 7
                    Sample.retitle Sample.bob (Sample.world ())) Sample.milk).
    + reflexivity.
    + discriminate.
Defined.

(** * Further properties of the handlers *)

(** ** Creating *)

(** X1.  [create_task] cannot fail, whatever the publisher does: it answers
    201 with a task that carries the next id, the caller as owner, the
    submitted fields (the reminder time as the column holds it) and
    [is_complete = False]; that task is then stored under its id, and no
    other row, nor the users table, is touched. *)
Theorem create_task_adds_one_row {PS} {column : TimestampColumn}
    (publisher : EventPublisher PS) (task_data : TaskCreate) (current_user : User)
    (w : World PS) :
  let r := create_task publisher task_data current_user w in
  let new_id := task_seq (db w) in
  ∃ task,
    r.1 = Ok task ∧ create_task_response r.1 = mkResponse 201 (BodyTask task) ∧
    id task = new_id ∧ user_id task = u_id current_user ∧
    is_complete task = false ∧
    title task = Some (c_title task_data) ∧
    description task = Some (c_description task_data) ∧
    priority task = Some (c_priority task_data) ∧
    reminder_time task = column_reading <$> c_reminder_time task_data ∧
    reminder_config task = c_reminder_config task_data ∧
    tasks (db r.2) !! new_id = Some task ∧
    (∀ k, k ≠ new_id → tasks (db r.2) !! k = tasks (db w) !! k) ∧
    task_seq (db r.2) = new_id + 1 ∧
    users (db r.2) = users (db w).
Proof.
  cbv zeta.
  destruct (create_task_run publisher task_data current_user w) as (Hr & Hdb & _).
  eexists. split; [exact Hr|]. rewrite Hr, Hdb. cbn.
  repeat (split; [reflexivity|]).
  split; [apply lookup_insert_eq|]. split; [|done].
  intros k Hk. by apply lookup_insert_ne.
Qed.

(** X2.  The first event [create_task] hands the publisher is the
    [TaskCreated] event of the new task; the only other event it can hand
    over is one [ReminderScheduled], and it does so exactly when the task
    has a reminder time. *)
Theorem create_task_announces_the_task_first {PS} {column : TimestampColumn}
    (publisher : EventPublisher PS) (task_data : TaskCreate) (current_user : User)
    (w : World PS) :
  let new_id := task_seq (db w) in
  ∃ rest,
    emitted (create_task publisher task_data current_user) w
      = TaskCreatedEvent "/api/tasks" (subject_of new_id)
          (mkTaskCreatedData new_id (u_id current_user) (Some (c_title task_data))
             (Some (c_description task_data)) (Some (c_priority task_data)))
        :: rest ∧
    Forall (λ e, is_reminder_scheduled e) rest ∧
    length rest = match c_reminder_time task_data with Some _ => 1%nat | None => 0%nat end.
Proof.
  cbv zeta.
  destruct (create_task_run publisher task_data current_user w) as (_ & _ & ->).
  eexists. split; [reflexivity|].
  destruct (c_reminder_time task_data); simpl; split; try done.
  by repeat constructor.
Qed.

(** ** Updating *)

(** X3.  An update of an existing task of the caller that the database
    accepts answers 200 with the committed row.  A submitted title,
    description or priority is the value of the column; a submitted
    reminder time is in the column as the column holds it (its reading,
    converted when it came with a UTC offset); a submitted configuration is
    in the column unless it compares equal to the stored one, which is
    then kept; every field that was not sent keeps its value; [updated_at]
    is the current time; and id, owner, completion flag and creation time
    are never changed by an update. *)
Theorem update_task_stores_what_was_sent {PS} {column : TimestampColumn}
    (publisher : EventPublisher PS) (task_id : Z) (task_data : TaskUpdate)
    (current_user : User) (w : World PS) (task : Task) :
  has_task w task_id task → user_id task = u_id current_user →
  not_null_ok task = true → keeps_required_columns task_data →
  let r := update_task publisher task_id task_data current_user w in
  ∃ task',
    r.1 = Ok task' ∧ update_task_response r.1 = mkResponse 200 (BodyTask task') ∧
    tasks (db r.2) !! task_id = Some task' ∧
    title task' = default (title task) (up_title task_data) ∧
    description task' = default (description task) (up_description task_data) ∧
    priority task' = default (priority task) (up_priority task_data) ∧
    reminder_time task' =
      match up_reminder_time task_data with
      | Some new => column_reading <$> new
      | None => reminder_time task
      end ∧
    reminder_config task' =
      match up_reminder_config task_data with
      | Some new => if py_eq (of_dict (reminder_config task)) (of_dict new)
                    then reminder_config task else new
      | None => reminder_config task
      end ∧
    updated_at task' = clock w ∧
    id task' = id task ∧ user_id task' = user_id task ∧
    is_complete task' = is_complete task ∧ created_at task' = created_at task.
Proof.
  intros Hhas Hown Hok Hkeep. cbv zeta.
  pose proof (update_task_run publisher task_id task_data current_user w task
                Hhas Hown) as Hrun.
  cbv zeta in Hrun. rewrite commit_accepts_update in Hrun by done.
  destruct Hrun as (Hr & Hdb & _).
  destruct (diff_loop_fields task_data task)
    as (Ei & Eu & Ec & Ecr & _ & Et & Ed & Ep & Er & Erc).
  cbv zeta in *.
  eexists. split; [exact Hr|]. rewrite Hr, Hdb.
  split; [reflexivity|]. split; [apply lookup_insert_eq|].
  cbn [title description priority reminder_time reminder_config updated_at id
       user_id is_complete created_at set_updated_at].
  rewrite Et, Ed, Ep, Er, Erc, Ei, Eu, Ec, Ecr.
  repeat (split; [reflexivity|]).
  split; [|done].
  destruct (up_reminder_config task_data) as [new|]; [|done].
  unfold py_ne. by destruct (py_eq _ _).
Qed.

(** The sample task is sent a reminder time with offset +01:00 and a
    configuration; the column holds the reading in UTC. *)
Lemma update_task_stores_what_was_sent_witness :
  let sent := mkTaskUpdate None None None
                (Some (Some (mkDatetime 4000000900 (Some 3600000000))))
                (Some (Some {[ "channels" := JArr [JStr "sms"] ]})) in
  let r := update_task broken_publisher 7 sent Sample.alice (Sample.world ()) in
  ∃ task',
    r.1 = Ok task' ∧ update_task_response r.1 = mkResponse 200 (BodyTask task') ∧
    tasks (db r.2) !! 7 = Some task' ∧
    title task' = Some "Buy milk" ∧
    description task' = Some "" ∧
    priority task' = Some "medium" ∧
    reminder_time task' = Some 400000900 ∧
    reminder_config task' = Some {[ "channels" := JArr [JStr "sms"] ]} ∧
    updated_at task' = 100 ∧
    id task' = 7 ∧ user_id task' = 1 ∧
    is_complete task' = false ∧
    created_at task' = 10.
Proof.
  refine (update_task_stores_what_was_sent broken_publisher 7
            (mkTaskUpdate None None None
               (Some (Some (mkDatetime 4000000900 (Some 3600000000))))
               (Some (Some {[ "channels" := JArr [JStr "sms"] ]})))
            Sample.alice (Sample.world ()) Sample.milk (conj eq_refl eq_refl)
            eq_refl eq_refl _).
  repeat split; discriminate.
Defined.

(** A submitted configuration that compares equal to the stored one is
    not written: after [{"n": true}] is sent to a task that holds
    [{"n": 1}], the task still holds [{"n": 1}]. *)
Example equal_configuration_is_kept :
  let stored := set_reminder_config (Some {[ "n" := JNum 1 ]}) Sample.bread in
  let w := mkWorld (with_tasks (insert 8 stored) Sample.store) 100 () [] [] in
  let sent := mkTaskUpdate None None None None (Some (Some {[ "n" := JBool true ]})) in
  let r := update_task reliable_publisher 8 sent Sample.alice w in
  (reminder_config <$> tasks (db r.2) !! 8) = Some (Some {[ "n" := JNum 1 ]}) ∧
  emitted (update_task reliable_publisher 8 sent Sample.alice) w = [].
Proof. vm_compute. split; reflexivity. Qed.

Lemma diff_loop_reaches_sent_values {column : TimestampColumn} (d : TaskUpdate)
    (t : Task) (now : timestamp) k v :
  timezone_free d → (k, v) ∈ model_dump_exclude_unset d →
  py_ne (getattr (set_updated_at now (diff_loop (model_dump_exclude_unset d) t).1.1) k) v
    = false.
Proof.
  intros Hfree Hin. destruct (diff_loop_tracks d t) as (_ & Hval & _).
  simpl in Hval. specialize (Hval k v Hin).
  rewrite getattr_set_updated_at.
  2: { apply updatable_tracked, (model_dump_keys d), list_elem_of_fmap.
       by exists (k, v). }
  destruct (py_ne (getattr t k) v) eqn:Hne; destruct Hval as [-> _]; [|done].
  rewrite (dump_as_stored d k v Hfree Hin). apply negb_false_iff, py_eq_refl.
Qed.

(** X4.  Sending an accepted update that carries no timezone-aware
    [reminder_time] a second time changes nothing but [updated_at] and
    hands nothing to the publisher: the differences were all consumed by
    the first request. *)
Theorem update_task_repeated_is_silent {PS} {column : TimestampColumn}
    (publisher : EventPublisher PS) (task_id : Z) (task_data : TaskUpdate)
    (current_user : User) (w : World PS) (task : Task) :
  has_task w task_id task → user_id task = u_id current_user →
  not_null_ok task = true → keeps_required_columns task_data →
  timezone_free task_data →
  let run := update_task publisher task_id task_data current_user in
  let w1 := (run w).2 in
  ∃ task',
    (run w).1 = Ok task' ∧
    emitted run w1 = [] ∧
    (run w1).1 = Ok (set_updated_at (clock w1) task') ∧
    tasks (db (run w1).2) !! task_id = Some (set_updated_at (clock w1) task').
Proof.
  intros Hhas Hown Hok Hkeep Hfree. cbv zeta.
  pose proof (update_task_run publisher task_id task_data current_user w task
                Hhas Hown) as Hrun.
  cbv zeta in Hrun.
  pose proof (commit_accepts_update task_data task (clock w) Hok Hkeep) as Hok'.
  rewrite Hok' in Hrun. destruct Hrun as (Hr & Hdb & _).
  set (task' := set_updated_at (clock w)
                  (diff_loop (model_dump_exclude_unset task_data) task).1.1) in *.
  set (w1 := (update_task publisher task_id task_data current_user w).2) in *.
  exists task'. split; [exact Hr|].
  assert (has_task w1 task_id task') as Hhas1.
  { split; [rewrite Hdb; apply lookup_insert_eq|].
    destruct (diff_loop_fields task_data task) as (Ei & _).
    destruct Hhas as [_ <-]. exact Ei. }
  assert (user_id task' = u_id current_user) as Hown1.
  { destruct (diff_loop_fields task_data task) as (_ & Eu & _).
    rewrite <- Hown. exact Eu. }
  pose proof (update_task_run publisher task_id task_data current_user w1 task'
                Hhas1 Hown1) as Hrun1.
  cbv zeta in Hrun1. unfold diff_loop in Hrun1.
  rewrite (diff_loop_noop _ task' ∅ ∅) in Hrun1
    by (intros k v Hin; by apply diff_loop_reaches_sent_values).
  cbn [fst snd] in Hrun1.
  change (not_null_ok (set_updated_at (clock w1) task')) with (not_null_ok task') in Hrun1.
  rewrite Hok' in Hrun1. rewrite lookup_empty in Hrun1.
  rewrite (bool_decide_eq_false_2 (∅ ≠ ∅)) in Hrun1 by (intros H; by apply H).
  rewrite (bool_decide_eq_false_2 (is_Some None)) in Hrun1 by (by intros [? ?]).
  destruct Hrun1 as (Hr1 & Hdb1 & Hev1).
  split; [exact Hev1|]. split; [exact Hr1|].
  rewrite Hdb1. apply lookup_insert_eq.
Qed.

Lemma update_task_repeated_is_silent_witness :
  let run := update_task reliable_publisher 7 Sample.drop_reminder Sample.alice in
  let w1 := (run (Sample.world ())).2 in
  ∃ task',
    (run (Sample.world ())).1 = Ok task' ∧
    emitted run w1 = [] ∧
    (run w1).1 = Ok (set_updated_at (clock w1) task') ∧
    tasks (db (run w1).2) !! 7 = Some (set_updated_at (clock w1) task').
Proof.
  apply (update_task_repeated_is_silent reliable_publisher 7 Sample.drop_reminder
           Sample.alice (Sample.world ()) Sample.milk (conj eq_refl eq_refl)
           eq_refl eq_refl).
  - repeat split; discriminate.
  - intros x. discriminate.
Defined.

(** X5.  An update that sends [null] for [title], [description] or
    [priority] is refused by the database: the request ends in an
    unhandled error (status 500), the stored rows are as before and nothing
    is handed to the publisher. *)
Theorem update_task_cannot_null_required_column {PS} {column : TimestampColumn}
    (publisher : EventPublisher PS) (task_id : Z) (task_data : TaskUpdate)
    (current_user : User) (w : World PS) (task : Task) :
  has_task w task_id task → user_id task = u_id current_user →
  nulls_required_column task_data →
  let r := update_task publisher task_id task_data current_user w in
  r.1 = Raise IntegrityError ∧
  update_task_response r.1 = mkResponse 500 BodyInternalServerError ∧
  db r.2 = db w ∧
  emitted (update_task publisher task_id task_data current_user) w = [].
Proof.
  intros Hhas Hown Hnull. cbv zeta.
  pose proof (update_task_run publisher task_id task_data current_user w task
                Hhas Hown) as Hrun.
  cbv zeta in Hrun.
  assert (not_null_ok (set_updated_at (clock w)
            (diff_loop (model_dump_exclude_unset task_data) task).1.1) = false) as Hbad.
  { destruct (diff_loop_fields task_data task)
      as (_ & _ & _ & _ & _ & Et & Ed & Ep & _).
    unfold not_null_ok. cbn [title description priority set_updated_at].
    rewrite Et, Ed, Ep.
    destruct Hnull as [-> | [-> | ->]]; simpl;
      rewrite ?andb_false_r; reflexivity. }
  rewrite Hbad in Hrun. destruct Hrun as (Hr & Hdb & Hev).
  rewrite Hr. done.
Qed.

Lemma update_task_cannot_null_required_column_witness :
  let r := update_task reliable_publisher 7
             (mkTaskUpdate (Some None) None None (Some None) None)
             Sample.alice (Sample.world ()) in
  r.1 = Raise IntegrityError ∧
  update_task_response r.1 = mkResponse 500 BodyInternalServerError ∧
  db r.2 = db (Sample.world ()) ∧
  emitted (update_task reliable_publisher 7
             (mkTaskUpdate (Some None) None None (Some None) None) Sample.alice)
          (Sample.world ()) = [].
Proof.
  apply (update_task_cannot_null_required_column reliable_publisher 7
           (mkTaskUpdate (Some None) None None (Some None) None)
           Sample.alice (Sample.world ()) Sample.milk (conj eq_refl eq_refl) eq_refl).
  left. reflexivity.
Defined.

(** X6.  Whenever an update hands the publisher a reminder event, that
    event is the second of exactly two: the first is the [TaskUpdated]
    event of the same request, and [reminder_time] is among its changes. *)
Theorem reminder_event_follows_task_updated {PS} {column : TimestampColumn}
    (publisher : EventPublisher PS) (task_id : Z) (task_data : TaskUpdate)
    (current_user : User) (w : World PS) (task : Task) (e : Event) :
  has_task w task_id task → user_id task = u_id current_user →
  e ∈ emitted (update_task publisher task_id task_data current_user) w →
  is_task_updated e = false →
  ∃ data,
    emitted (update_task publisher task_id task_data current_user) w
      = [TaskUpdatedEvent "/api/tasks" (subject_of task_id) data; e] ∧
    "reminder_time" ∈ dom (tu_changes data) ∧
    (is_reminder_scheduled e || is_reminder_cancelled e) = true.
Proof.
  intros Hhas Hown Hin Hkind.
  pose proof (update_task_run publisher task_id task_data current_user w task
                Hhas Hown) as Hrun.
  cbv zeta in Hrun.
  destruct (not_null_ok _) in Hrun; destruct Hrun as (_ & _ & Hev);
    rewrite Hev in *; [|by apply elem_of_nil in Hin].
  set (acc := diff_loop (model_dump_exclude_unset task_data) task) in *.
  destruct (bool_decide (is_Some (acc.1.2 !! "reminder_time"))) eqn:Hrt.
  - apply bool_decide_eq_true in Hrt.
    assert (acc.1.2 ≠ ∅) as Hne.
    { intros E. rewrite E, lookup_empty in Hrt. by destruct Hrt. }
    rewrite (bool_decide_eq_true_2 _ Hne) in *.
    apply elem_of_cons in Hin as [->|Hin]; [discriminate Hkind|].
    match type of Hin with
    | _ ∈ ?B =>
        assert (B = [e] ∧ (is_reminder_scheduled e || is_reminder_cancelled e) = true)
          as [HB Hk]
    end.
    { destruct (reminder_time task), (reminder_time _); simpl in Hin |- *;
        first [ by apply elem_of_nil in Hin
              | apply list_elem_of_singleton in Hin; by subst e ]. }
    rewrite HB. eexists. split; [reflexivity|].
    split; [cbn; by apply elem_of_dom|done].
  - rewrite app_nil_r in Hin. case_bool_decide; [|by apply elem_of_nil in Hin].
    apply list_elem_of_singleton in Hin. subst e. discriminate Hkind.
Qed.

Lemma reminder_event_follows_task_updated_witness :
  ∃ data,
    emitted (update_task broken_publisher 7 Sample.drop_reminder Sample.alice)
            (Sample.world ())
      = [TaskUpdatedEvent "/api/tasks" (subject_of 7) data;
         ReminderCancelledEvent "/api/tasks" "task/7"
           (mkReminderCancelledData 7 1 "reminder_removed" 101)] ∧
    "reminder_time" ∈ dom (tu_changes data) ∧
    (is_reminder_scheduled
       (ReminderCancelledEvent "/api/tasks" "task/7"
          (mkReminderCancelledData 7 1 "reminder_removed" 101))
     || is_reminder_cancelled
          (ReminderCancelledEvent "/api/tasks" "task/7"
             (mkReminderCancelledData 7 1 "reminder_removed" 101))) = true.
Proof.
  apply (reminder_event_follows_task_updated broken_publisher 7 Sample.drop_reminder
           Sample.alice (Sample.world ()) Sample.milk _ (conj eq_refl eq_refl) eq_refl).
  - vm_compute. right. left.
  - reflexivity.
Defined.

(** A naive and a timezone-aware datetime never compare equal. *)
Lemma stored_ne_aware (r : option timestamp) (sent : datetime) offset :
  utcoffset sent = Some offset →
  py_ne (of_datetime (naive <$> r)) (of_datetime (Some sent)) = true.
Proof.
  intros Hoff. destruct r; [|done].
  unfold py_ne. cbn [of_datetime fmap option_fmap option_map py_eq].
  unfold datetime_eq. cbn [naive utcoffset]. by rewrite Hoff.
Qed.

(** X20.  A reminder time that is submitted with a UTC offset always
    counts as changed, whatever the column holds: an accepted update that
    carries one hands the publisher a [TaskUpdated] event that lists
    [reminder_time], with the submitted value as the new and the stored
    one as the old value, followed by a [ReminderScheduled] event for the
    time the column now holds -- also when that is the time it held
    before. *)
Theorem aware_reminder_time_counts_as_changed {PS} {column : TimestampColumn}
    (publisher : EventPublisher PS) (task_id : Z) (task_data : TaskUpdate)
    (current_user : User) (w : World PS) (task : Task) (sent : datetime) (offset : Z) :
  has_task w task_id task → user_id task = u_id current_user →
  not_null_ok task = true → keeps_required_columns task_data →
  up_reminder_time task_data = Some (Some sent) → utcoffset sent = Some offset →
  let run := update_task publisher task_id task_data current_user in
  ∃ task' data,
    (run w).1 = Ok task' ∧
    tasks (db (run w).2) !! task_id = Some task' ∧
    reminder_time task' = Some (column_reading sent) ∧
    emitted run w =
      [TaskUpdatedEvent "/api/tasks" (subject_of task_id) data;
       TaskReminderScheduledEvent "/api/tasks" (subject_of task_id)
         (mkTaskReminderScheduledData task_id (user_id task) (column_reading sent)
            (_get_notification_channels (reminder_config task')))] ∧
    tu_changes data !! "reminder_time" = Some (VDateTime sent) ∧
    tu_previous_values data !! "reminder_time"
      = Some (of_datetime (naive <$> reminder_time task)).
Proof.
  intros Hhas Hown Hok Hkeep Hsent Hoff. cbv zeta.
  pose proof (update_task_run publisher task_id task_data current_user w task
                Hhas Hown) as Hrun.
  cbv zeta in Hrun. rewrite commit_accepts_update in Hrun by done.
  destruct Hrun as (Hr & Hdb & Hev).
  pose proof (stored_ne_aware (reminder_time task) sent offset Hoff) as Hne.
  destruct (diff_loop_tracks task_data task) as (Htr & Hval & _). simpl in Htr, Hval.
  assert (("reminder_time", of_datetime (Some sent))
            ∈ model_dump_exclude_unset task_data) as Hin by dumped_here.
  apply Hval in Hin.
  change (getattr task "reminder_time")
    with (of_datetime (naive <$> reminder_time task)) in Hin.
  rewrite Hne in Hin. destruct Hin as [_ Hch].
  destruct (diff_loop_fields task_data task) as (_ & _ & _ & _ & _ & _ & _ & _ & Er & _).
  cbv zeta in Er. rewrite Hsent in Er. simpl in Er.
  set (acc := diff_loop (model_dump_exclude_unset task_data) task) in *.
  assert (acc.1.2 ≠ ∅) as Hnonempty.
  { intros E. by rewrite E, lookup_empty in Hch. }
  rewrite (bool_decide_eq_true_2 _ Hnonempty) in Hev.
  rewrite (bool_decide_eq_true_2 (is_Some (acc.1.2 !! "reminder_time"))) in Hev
    by (by eexists).
  cbn [reminder_time reminder_config set_updated_at] in Hev. rewrite Er in Hev.
  eexists. eexists. split; [exact Hr|]. split; [rewrite Hdb; apply lookup_insert_eq|].
  split; [exact Er|]. split.
  - rewrite Hev. by destruct (reminder_time task).
  - cbn [tu_changes tu_previous_values]. split; [exact Hch|].
    destruct (Htr "reminder_time") as [(E & _) | (v & _ & E & _)]; [|exact E].
    by rewrite Hch in E.
Qed.

(** The sample task holds the reminder time 500; the same time sent with
    offset zero is reported as a change from 500 to itself and scheduled
    again. *)
Lemma aware_reminder_time_counts_as_changed_witness :
  let run := update_task reliable_publisher 7 Sample.resend_reminder_utc
               Sample.alice in
  ∃ task' data,
    (run (Sample.world ())).1 = Ok task' ∧
    tasks (db (run (Sample.world ())).2) !! 7 = Some task' ∧
    reminder_time task' = reminder_time Sample.milk ∧
    emitted run (Sample.world ()) =
      [TaskUpdatedEvent "/api/tasks" (subject_of 7) data;
       TaskReminderScheduledEvent "/api/tasks" (subject_of 7)
         (mkTaskReminderScheduledData 7 1 500
            (_get_notification_channels (reminder_config task')))] ∧
    tu_changes data !! "reminder_time" = Some (VDateTime (mkDatetime 500 (Some 0))) ∧
    tu_previous_values data !! "reminder_time" = Some (VDateTime (naive 500)).
Proof.
  refine (aware_reminder_time_counts_as_changed reliable_publisher 7
            Sample.resend_reminder_utc Sample.alice (Sample.world ()) Sample.milk
            (mkDatetime 500 (Some 0)) 0 (conj eq_refl eq_refl) eq_refl eq_refl _
            eq_refl eq_refl).
  repeat split; discriminate.
Defined.

(** ** Toggling and deleting *)

(** What [toggle_task] does on an existing task of the caller. *)
Lemma toggle_task_run {PS} (publisher : EventPublisher PS) (task_id : Z)
    (current_user : User) (w : World PS) (t : Task) :
  has_task w task_id t → user_id t = u_id current_user → not_null_ok t = true →
  let t' := set_updated_at (clock w) (set_is_complete (negb (is_complete t)) t) in
  let r := toggle_task publisher task_id current_user w in
  r.1 = Ok t' ∧ db r.2 = with_tasks (insert task_id t') (db w) ∧
  clock r.2 = clock w + 1 ∧
  emitted (toggle_task publisher task_id current_user) w =
    [TaskUpdatedEvent "/api/tasks" (subject_of task_id)
       (mkTaskUpdatedData task_id (user_id t)
          {[ "is_complete" := VBool (negb (is_complete t)) ]}
          {[ "is_complete" := VBool (is_complete t) ]})].
Proof.
  intros [Hget Hid] Hown Hok. unfold emitted. unfold_run. rewrite Hget.
  rewrite bool_decide_eq_false_2 by (intros ?; congruence).
  cbn [fst snd db clock pub_state sent log]. unfold session_commit_task.
  change (not_null_ok (set_updated_at (clock w)
            (set_is_complete (negb (is_complete t)) t))) with (not_null_ok t).
  rewrite Hok.
  cbn [fst snd db clock pub_state sent log id user_id is_complete
       set_updated_at set_is_complete].
  rewrite Hid.
  run_publish; (split; [reflexivity|split; [reflexivity|split; [reflexivity|]]]);
    emitted_list; reflexivity.
Qed.

(** X7.  Toggling a task twice brings its completion flag back: after the
    second toggle the stored row is the original one with a new
    [updated_at], and the two [TaskUpdated] events report the flag going
    one way and then the other. *)
Theorem toggle_task_twice_restores_the_flag {PS} (publisher : EventPublisher PS)
    (task_id : Z) (current_user : User) (w : World PS) (task : Task) :
  has_task w task_id task → user_id task = u_id current_user →
  not_null_ok task = true →
  let run := toggle_task publisher task_id current_user in
  let w1 := (run w).2 in
  (run w1).1 = Ok (set_updated_at (clock w + 1) task) ∧
  tasks (db (run w1).2) !! task_id = Some (set_updated_at (clock w + 1) task) ∧
  emitted run w ++ emitted run w1 =
    [TaskUpdatedEvent "/api/tasks" (subject_of task_id)
       (mkTaskUpdatedData task_id (user_id task)
          {[ "is_complete" := VBool (negb (is_complete task)) ]}
          {[ "is_complete" := VBool (is_complete task) ]});
     TaskUpdatedEvent "/api/tasks" (subject_of task_id)
       (mkTaskUpdatedData task_id (user_id task)
          {[ "is_complete" := VBool (is_complete task) ]}
          {[ "is_complete" := VBool (negb (is_complete task)) ]})].
Proof.
  intros Hhas Hown Hok. cbv zeta.
  destruct (toggle_task_run publisher task_id current_user w task Hhas Hown Hok)
    as (_ & Hdb & Hclock & Hev).
  set (w1 := (toggle_task publisher task_id current_user w).2) in *.
  set (t1 := set_updated_at (clock w) (set_is_complete (negb (is_complete task)) task)).
  assert (has_task w1 task_id t1) as Hhas1.
  { split; [rewrite Hdb; apply lookup_insert_eq|]. by destruct Hhas. }
  destruct (toggle_task_run publisher task_id current_user w1 t1 Hhas1 Hown Hok)
    as (Hr1 & Hdb1 & _ & Hev1).
  assert (set_updated_at (clock w1) (set_is_complete (negb (is_complete t1)) t1)
          = set_updated_at (clock w + 1) task) as E.
  { rewrite Hclock. destruct task. unfold t1, set_updated_at, set_is_complete.
    simpl. by rewrite negb_involutive. }
  rewrite E in Hr1, Hdb1. rewrite Hev, Hev1.
  split; [exact Hr1|]. split; [rewrite Hdb1; apply lookup_insert_eq|].
  cbn [is_complete user_id t1 set_updated_at set_is_complete].
  by rewrite negb_involutive.
Qed.

Lemma toggle_task_twice_restores_the_flag_witness :
  let run := toggle_task broken_publisher 7 Sample.alice in
  let w1 := (run (Sample.world ())).2 in
  (run w1).1 = Ok (set_updated_at (100 + 1) Sample.milk) ∧
  tasks (db (run w1).2) !! 7 = Some (set_updated_at (100 + 1) Sample.milk) ∧
  emitted run (Sample.world ()) ++ emitted run w1 =
    [TaskUpdatedEvent "/api/tasks" (subject_of 7)
       (mkTaskUpdatedData 7 1 {[ "is_complete" := VBool true ]}
                              {[ "is_complete" := VBool false ]});
     TaskUpdatedEvent "/api/tasks" (subject_of 7)
       (mkTaskUpdatedData 7 1 {[ "is_complete" := VBool false ]}
                              {[ "is_complete" := VBool true ]})].
Proof.
  apply (toggle_task_twice_restores_the_flag broken_publisher 7 Sample.alice
           (Sample.world ()) Sample.milk (conj eq_refl eq_refl) eq_refl eq_refl).
Defined.

(** What [delete_task] does on an existing task of the caller. *)
Lemma delete_task_run {PS} (publisher : EventPublisher PS) (task_id : Z)
    (current_user : User) (w : World PS) (t : Task) :
  has_task w task_id t → user_id t = u_id current_user →
  let r := delete_task publisher task_id current_user w in
  r.1 = Ok () ∧ db r.2 = with_tasks (delete task_id) (db w) ∧
  emitted (delete_task publisher task_id current_user) w =
    TaskDeletedEvent "/api/tasks" (subject_of task_id)
      (mkTaskDeletedData task_id (user_id t) (title t) (is_complete t))
    :: match reminder_time t with
       | Some _ =>
           [ReminderCancelledEvent "/api/tasks" (subject_of task_id)
              (mkReminderCancelledData task_id (user_id t) "task_deleted" (clock w))]
       | None => []
       end.
Proof.
  intros [Hget Hid] Hown. unfold emitted. unfold_run. rewrite Hget, Hid.
  rewrite bool_decide_eq_false_2 by (intros ?; congruence).
  cbn [fst snd db clock pub_state sent log].
  run_publish; destruct (reminder_time t); cbn [bool_decide decide_rel]; simpl;
    try run_publish;
    (split; [reflexivity|split; [reflexivity|]]); emitted_list; reflexivity.
Qed.

(** X8.  Deleting an existing task of the caller answers 204, removes the
    row and leaves every other row alone; the first event handed to the
    publisher is the [TaskDeleted] event with the title and completion flag
    the task had; and from then on update, toggle and delete of that id
    answer 404. *)
Theorem delete_task_removes_the_row {PS} {column : TimestampColumn}
    (publisher : EventPublisher PS) (task_id : Z) (current_user : User)
    (w : World PS) (task : Task) :
  has_task w task_id task → user_id task = u_id current_user →
  let r := delete_task publisher task_id current_user w in
  delete_task_response r.1 = mkResponse 204 BodyEmpty ∧
  tasks (db r.2) !! task_id = None ∧
  (∀ k, k ≠ task_id → tasks (db r.2) !! k = tasks (db w) !! k) ∧
  (∃ rest, emitted (delete_task publisher task_id current_user) w
           = TaskDeletedEvent "/api/tasks" (subject_of task_id)
               (mkTaskDeletedData task_id (user_id task) (title task)
                                  (is_complete task)) :: rest) ∧
  (∀ task_data,
     status (update_task_response
               (update_task publisher task_id task_data current_user r.2).1) = 404) ∧
  status (toggle_task_response (toggle_task publisher task_id current_user r.2).1) = 404 ∧
  status (delete_task_response (delete_task publisher task_id current_user r.2).1) = 404.
Proof.
  intros Hhas Hown. cbv zeta.
  destruct (delete_task_run publisher task_id current_user w task Hhas Hown)
    as (Hr & Hdb & Hev).
  set (w1 := (delete_task publisher task_id current_user w).2) in *.
  assert (tasks (db w1) !! task_id = None) as Hgone
    by (rewrite Hdb; apply lookup_delete_eq).
  rewrite Hr, Hev. split; [reflexivity|]. split; [exact Hgone|].
  split; [intros k Hk; rewrite Hdb; by apply lookup_delete_ne|].
  split; [by eexists|].
  unfold_run. rewrite Hgone. simpl. done.
Qed.

Lemma delete_task_removes_the_row_witness :
  let r := delete_task broken_publisher 8 Sample.alice (Sample.world ()) in
  delete_task_response r.1 = mkResponse 204 BodyEmpty ∧
  tasks (db r.2) !! 8 = None ∧
  (∀ k, k ≠ 8 → tasks (db r.2) !! k = tasks (db (Sample.world ())) !! k) ∧
  (∃ rest, emitted (delete_task broken_publisher 8 Sample.alice) (Sample.world ())
           = TaskDeletedEvent "/api/tasks" (subject_of 8)
               (mkTaskDeletedData 8 (user_id Sample.bread) (title Sample.bread)
                                  (is_complete Sample.bread)) :: rest) ∧
  (∀ task_data,
     status (update_task_response
               (update_task broken_publisher 8 task_data Sample.alice r.2).1) = 404) ∧
  status (toggle_task_response (toggle_task broken_publisher 8 Sample.alice r.2).1) = 404 ∧
  status (delete_task_response (delete_task broken_publisher 8 Sample.alice r.2).1) = 404.
Proof.
  apply (delete_task_removes_the_row broken_publisher 8 Sample.alice
           (Sample.world ()) Sample.bread (conj eq_refl eq_refl) eq_refl).
Defined.

(** ** What the handlers keep *)

Lemma update_task_db {PS} {column : TimestampColumn}
    (publisher : EventPublisher PS) (task_id : Z) (task_data : TaskUpdate)
    (current_user : User) (w : World PS) :
  let r := update_task publisher task_id task_data current_user w in
  db r.2 = db w ∨
  ∃ t t', tasks (db w) !! task_id = Some t ∧ id t' = id t ∧
          db r.2 = with_tasks (insert (id t) t') (db w).
Proof.
  cbv zeta. unfold_run.
  destruct (tasks (db w) !! task_id) as [task|] eqn:Hget; [|by left].
  case_bool_decide; [by left|].
  pose proof (diff_loop_fields task_data task) as (Hi & _). cbv zeta in Hi.
  destruct (diff_loop (model_dump_exclude_unset task_data) task) as [[t1 ch] pv].
  simpl in Hi.
  unfold session_commit_task. cbn [fst snd db clock pub_state sent log].
  destruct (not_null_ok _); [|by left].
  cbn [fst snd db clock pub_state sent log id user_id reminder_time
       reminder_config set_updated_at].
  right. exists task, (set_updated_at (clock w) t1).
  split; [done|]. split; [done|]. rewrite Hi.
  destruct (bool_decide (ch ≠ ∅)); [run_publish|];
    (destruct (bool_decide (is_Some (ch !! "reminder_time")));
     [destruct (reminder_time task), (reminder_time t1);
      cbn [truthy of_datetime andb negb fmap option_fmap option_map]; try run_publish|]);
    reflexivity.
Qed.

Lemma toggle_task_db {PS} (publisher : EventPublisher PS) (task_id : Z)
    (current_user : User) (w : World PS) :
  let r := toggle_task publisher task_id current_user w in
  db r.2 = db w ∨
  ∃ t t', tasks (db w) !! task_id = Some t ∧ id t' = id t ∧
          db r.2 = with_tasks (insert (id t) t') (db w).
Proof.
  cbv zeta. unfold_run.
  destruct (tasks (db w) !! task_id) as [task|] eqn:Hget; [|by left].
  case_bool_decide; [by left|].
  unfold session_commit_task. cbn [fst snd db clock pub_state sent log].
  destruct (not_null_ok _); [|by left].
  cbn [fst snd db clock pub_state sent log id set_updated_at set_is_complete].
  right. eexists task, _. split; [done|]. split; [|run_publish; reflexivity].
  reflexivity.
Qed.

Lemma delete_task_db {PS} (publisher : EventPublisher PS) (task_id : Z)
    (current_user : User) (w : World PS) :
  let r := delete_task publisher task_id current_user w in
  db r.2 = db w ∨
  ∃ t, tasks (db w) !! task_id = Some t ∧
       db r.2 = with_tasks (delete (id t)) (db w).
Proof.
  cbv zeta. unfold_run.
  destruct (tasks (db w) !! task_id) as [task|] eqn:Hget; [|by left].
  case_bool_decide; [by left|].
  cbn [fst snd db clock pub_state sent log].
  right. exists task. split; [done|].
  run_publish; (destruct (bool_decide (reminder_time task ≠ None)); [run_publish|]);
    reflexivity.
Qed.

Lemma store_ok_insert (d : Db) (t t' : Task) k :
  store_ok d → tasks d !! k = Some t → id t' = id t →
  store_ok (with_tasks (insert (id t) t') d).
Proof.
  intros Hok Hget Hid k' x. simpl.
  destruct (Hok k t Hget) as [Hk Hlt]. rewrite Hk.
  destruct (decide (k = k')) as [<-|Hne].
  - rewrite lookup_insert_eq. intros [= <-]. split; [congruence|done].
  - rewrite lookup_insert_ne by done. apply Hok.
Qed.

Lemma store_ok_delete (d : Db) k : store_ok d → store_ok (with_tasks (delete k) d).
Proof.
  intros Hok k' x. simpl. intros Hget.
  apply lookup_delete_Some in Hget as [_ Hget]. by apply Hok.
Qed.

(** X9.  The four writing handlers keep the task table well formed: if
    every task is stored under its own id and below the id counter before
    the request, the same holds after it, for every input, caller and
    publisher; and a create never replaces an existing row. *)
Theorem handlers_keep_the_store_well_formed {PS} {column : TimestampColumn}
    (publisher : EventPublisher PS) (current_user : User) (w : World PS) :
  store_ok (db w) →
  (∀ task_data,
     let r := create_task publisher task_data current_user w in
     store_ok (db r.2) ∧ tasks (db w) ⊆ tasks (db r.2)) ∧
  (∀ task_id task_data,
     store_ok (db (update_task publisher task_id task_data current_user w).2)) ∧
  (∀ task_id, store_ok (db (toggle_task publisher task_id current_user w).2)) ∧
  (∀ task_id, store_ok (db (delete_task publisher task_id current_user w).2)).
Proof.
  intros Hok. split; [|split; [|split]].
  - intros task_data. cbv zeta.
    destruct (create_task_run publisher task_data current_user w) as (_ & -> & _).
    assert (tasks (db w) !! task_seq (db w) = None) as Hfresh.
    { destruct (tasks (db w) !! task_seq (db w)) as [t|] eqn:E; [|done].
      destruct (Hok _ _ E) as [_ Hlt]. lia. }
    split.
    + intros k x. cbn [tasks task_seq].
      destruct (decide (task_seq (db w) = k)) as [<-|Hne].
      * rewrite lookup_insert_eq. intros [= <-]. simpl. split; [done|lia].
      * rewrite lookup_insert_ne by done. intros Hget.
        destruct (Hok _ _ Hget). split; [done|lia].
    + cbn [tasks]. by apply insert_subseteq.
  - intros task_id task_data.
    destruct (update_task_db publisher task_id task_data current_user w)
      as [-> | (t & t' & Hget & Hid & ->)]; [done|].
    by eapply store_ok_insert.
  - intros task_id.
    destruct (toggle_task_db publisher task_id current_user w)
      as [-> | (t & t' & Hget & Hid & ->)]; [done|].
    by eapply store_ok_insert.
  - intros task_id.
    destruct (delete_task_db publisher task_id current_user w)
      as [-> | (t & Hget & ->)]; [done|].
    by apply store_ok_delete.
Qed.

Lemma sample_store_ok : store_ok Sample.store.
Proof.
  intros k t Hget. unfold Sample.store in Hget. cbn [tasks task_seq] in *.
  apply lookup_insert_Some in Hget as [[<- <-] | [_ Hget]]; [split; reflexivity|].
  apply lookup_singleton_Some in Hget as [<- <-]. split; reflexivity.
Defined.

Lemma handlers_keep_the_store_well_formed_witness :
  store_ok (db (update_task broken_publisher 7 Sample.retitle Sample.alice
                  (Sample.world ())).2).
Proof.
  apply (proj1 (proj2 (handlers_keep_the_store_well_formed broken_publisher
                         Sample.alice (Sample.world ()) sample_store_ok))
           7 Sample.retitle).
Defined.

(** X10.  In a well-formed store, update, toggle and delete of one task id
    never touch the row of another id, nor the users table, whoever calls
    them and whatever the publisher does. *)
Theorem handlers_touch_only_the_addressed_task {PS} {column : TimestampColumn}
    (publisher : EventPublisher PS) (task_id : Z) (task_data : TaskUpdate)
    (current_user : User) (w : World PS) (other : Z) :
  store_ok (db w) → other ≠ task_id →
  let u := update_task publisher task_id task_data current_user w in
  let t := toggle_task publisher task_id current_user w in
  let d := delete_task publisher task_id current_user w in
  tasks (db u.2) !! other = tasks (db w) !! other ∧ users (db u.2) = users (db w) ∧
  tasks (db t.2) !! other = tasks (db w) !! other ∧ users (db t.2) = users (db w) ∧
  tasks (db d.2) !! other = tasks (db w) !! other ∧ users (db d.2) = users (db w).
Proof.
  intros Hok Hne. cbv zeta.
  destruct (update_task_db publisher task_id task_data current_user w)
    as [-> | (t & t' & Hget & Hid & ->)];
  destruct (toggle_task_db publisher task_id current_user w)
    as [-> | (t2 & t2' & Hget2 & Hid2 & ->)];
  destruct (delete_task_db publisher task_id current_user w)
    as [-> | (t3 & Hget3 & ->)];
  repeat match goal with
         | H : tasks (db w) !! task_id = Some ?x |- _ =>
             destruct (Hok _ _ H) as [-> _]; clear H
         end;
  cbn [tasks users with_tasks];
  rewrite ?lookup_insert_ne, ?lookup_delete_ne by done; done.
Qed.

Lemma handlers_touch_only_the_addressed_task_witness :
  let u := update_task broken_publisher 7 Sample.retitle Sample.alice (Sample.world ()) in
  let t := toggle_task broken_publisher 7 Sample.alice (Sample.world ()) in
  let d := delete_task broken_publisher 7 Sample.alice (Sample.world ()) in
  tasks (db u.2) !! 8 = tasks (db (Sample.world ())) !! 8 ∧
  users (db u.2) = users (db (Sample.world ())) ∧
  tasks (db t.2) !! 8 = tasks (db (Sample.world ())) !! 8 ∧
  users (db t.2) = users (db (Sample.world ())) ∧
  tasks (db d.2) !! 8 = tasks (db (Sample.world ())) !! 8 ∧
  users (db d.2) = users (db (Sample.world ())).
Proof.
  apply (handlers_touch_only_the_addressed_task broken_publisher 7 Sample.retitle
           Sample.alice (Sample.world ()) 8 sample_store_ok).
  discriminate.
Defined.

(** ** Logging *)

Ltac log_lists :=
  unfold new_log, new_calls; cbn [fst snd db clock pub_state sent log];
  rewrite <- ?app_assoc, ?drop_app_length, ?drop_all;
  cbn [app]; repeat constructor.

(** X11.  Every publication attempt leaves exactly one log line, in order:
    an info line when the publisher returned and an error line when it
    raised; a request that publishes nothing logs nothing.  This holds for
    create, update, toggle and delete alike. *)
Theorem log_mirrors_publish_outcomes {PS} {column : TimestampColumn}
    (publisher : EventPublisher PS) (current_user : User) (w : World PS) :
  (∀ task_data,
     Forall2 line_reports (new_log (create_task publisher task_data current_user) w)
                          (new_calls (create_task publisher task_data current_user) w)) ∧
  (∀ task_id task_data,
     Forall2 line_reports
       (new_log (update_task publisher task_id task_data current_user) w)
       (new_calls (update_task publisher task_id task_data current_user) w)) ∧
  (∀ task_id,
     Forall2 line_reports (new_log (toggle_task publisher task_id current_user) w)
                          (new_calls (toggle_task publisher task_id current_user) w)) ∧
  (∀ task_id,
     Forall2 line_reports (new_log (delete_task publisher task_id current_user) w)
                          (new_calls (delete_task publisher task_id current_user) w)).
Proof.
  split; [|split; [|split]].
  - intros task_data. unfold new_log, new_calls. unfold_run.
    unfold session_commit_new_task.
    replace (not_null_ok _) with true by reflexivity.
    cbn [fst snd db clock pub_state sent log id user_id title description
         priority reminder_time reminder_config].
    run_publish; (destruct (c_reminder_time task_data);
                  cbn [fmap option_fmap option_map]; [run_publish|]); log_lists.
  - intros task_id task_data. unfold new_log, new_calls. unfold_run.
    destruct (tasks (db w) !! task_id) as [task|]; [|log_lists].
    case_bool_decide; [log_lists|].
    destruct (diff_loop (model_dump_exclude_unset task_data) task) as [[t1 ch] pv].
    unfold session_commit_task. cbn [fst snd db clock pub_state sent log].
    destruct (not_null_ok _); [|log_lists].
    cbn [fst snd db clock pub_state sent log id user_id reminder_time
         reminder_config set_updated_at].
    destruct (bool_decide (ch ≠ ∅)); [run_publish|];
      (destruct (bool_decide (is_Some (ch !! "reminder_time")));
       [destruct (reminder_time task), (reminder_time t1);
        cbn [truthy of_datetime andb negb fmap option_fmap option_map]; try run_publish|]);
      log_lists.
  - intros task_id. unfold new_log, new_calls. unfold_run.
    destruct (tasks (db w) !! task_id) as [task|]; [|log_lists].
    case_bool_decide; [log_lists|].
    unfold session_commit_task. cbn [fst snd db clock pub_state sent log].
    destruct (not_null_ok _); [|log_lists].
    cbn [fst snd db clock pub_state sent log].
    run_publish; log_lists.
  - intros task_id. unfold new_log, new_calls. unfold_run.
    destruct (tasks (db w) !! task_id) as [task|]; [|log_lists].
    case_bool_decide; [log_lists|].
    cbn [fst snd db clock pub_state sent log].
    run_publish; (destruct (bool_decide (reminder_time task ≠ None)); [run_publish|]);
      log_lists.
Qed.

(** ** Listing *)

#[local] Instance newest_first_total : Total newest_first.
Proof. intros a b. unfold newest_first. lia. Qed.

#[local] Instance newest_first_trans : Transitive newest_first.
Proof. intros a b c. unfold newest_first. lia. Qed.

(** X12.  [get_tasks] returns exactly the stored tasks whose owner is the
    caller -- never a task of somebody else -- ordered so that no task comes
    before a newer one; it changes nothing; and in a well-formed store no
    task is listed twice. *)
Theorem get_tasks_lists_own_tasks_newest_first {PS} (current_user : User)
    (w : World PS) :
  ∃ listed,
    get_tasks current_user w = (Ok listed, w) ∧
    (∀ t, t ∈ listed ↔
          user_id t = u_id current_user ∧ ∃ k, tasks (db w) !! k = Some t) ∧
    StronglySorted (λ a b, created_at b ≤ created_at a) listed ∧
    (store_ok (db w) → NoDup listed).
Proof.
  eexists. split; [reflexivity|]. split; [|split].
  - intros t. rewrite merge_sort_Permutation, list_elem_of_filter, list_elem_of_fmap.
    split.
    + intros [Hown [[k t'] [-> Hin]]]. split; [done|].
      exists k. by apply elem_of_map_to_list.
    + intros [Hown [k Hget]]. split; [done|].
      exists (k, t). split; [done|]. by apply elem_of_map_to_list.
  - apply (StronglySorted_merge_sort newest_first).
  - intros Hok. rewrite merge_sort_Permutation. apply NoDup_filter.
    apply NoDup_fmap_2_strong; [|apply NoDup_map_to_list].
    intros [k1 t1] [k2 t2] H1%elem_of_map_to_list H2%elem_of_map_to_list.
    simpl. intros <-.
    destruct (Hok _ _ H1) as [<- _], (Hok _ _ H2) as [<- _]. done.
Qed.

Lemma get_tasks_lists_own_tasks_newest_first_witness :
  NoDup (match (get_tasks Sample.alice (Sample.world ())).1 with
         | Ok listed => listed
         | Raise _ => []
         end).
Proof.
  destruct (get_tasks_lists_own_tasks_newest_first Sample.alice (Sample.world ()))
    as (listed & Hrun & _ & _ & Hnodup).
  rewrite Hrun. apply Hnodup. exact sample_store_ok.
Defined.

Example get_tasks_sample :
  (get_tasks Sample.alice (Sample.world ())).1 = Ok [Sample.bread; Sample.milk] ∧
  (get_tasks Sample.bob (Sample.world ())).1 = Ok [].
Proof. split; vm_compute; reflexivity. Qed.

(** ** Authentication dependencies *)

(** X13.  For a token that decodes to a payload with an integer
    [user_id], [get_current_user] succeeds exactly when the token is not
    the empty string, the id is not 0 and a user with that id is stored,
    and it returns that stored user.  A token for user id 0 is refused
    ("Invalid token payload") even if a user 0 exists, and an empty cookie
    is treated like a missing one ("Not authenticated"). *)
Theorem get_current_user_with_integer_id {PS}
    (decode_jwt : string → option dict) (token : string) (payload : dict)
    (n : Z) (w : World PS) :
  decode_jwt token = Some payload → payload !! "user_id" = Some (JNum n) →
  (∀ user,
     (get_current_user decode_jwt (Some token) w).1 = Ok user ↔
     token ≠ "" ∧ n ≠ 0 ∧ users (db w) !! n = Some user) ∧
  (token ≠ "" → n = 0 →
     (get_current_user decode_jwt (Some token) w).1
       = Raise (HTTPException 401 "Invalid token payload")) ∧
  (get_current_user decode_jwt (Some "") w).1
    = Raise (HTTPException 401 "Not authenticated") ∧
  (get_current_user decode_jwt None w).1
    = Raise (HTTPException 401 "Not authenticated").
Proof.
  intros Hdec Hid.
  assert (payload ≠ ∅) as Hpay by (intros ->; by rewrite lookup_empty in Hid).
  split; [|split; [|split; reflexivity]].
  - intros user. unfold_run. simpl.
    case_bool_decide as Htok; simpl; [|split; [done|by intros [? _]]].
    rewrite Hdec. simpl. rewrite (bool_decide_eq_true_2 _ Hpay). simpl.
    rewrite Hid. simpl.
    case_bool_decide as Hn; simpl; [|split; [done|by intros (_ & ? & _)]].
    destruct (users (db w) !! n) as [u|]; simpl.
    + split; [by intros [= <-]|by intros (_ & _ & [= <-])].
    + split; [done|by intros (_ & _ & ?)].
  - intros Htok ->. unfold_run. simpl.
    rewrite (bool_decide_eq_true_2 _ Htok). simpl. rewrite Hdec. simpl.
    rewrite (bool_decide_eq_true_2 _ Hpay). simpl. rewrite Hid. reflexivity.
Qed.

Lemma get_current_user_with_integer_id_witness :
  (get_current_user Demo.toy_decode (Some "token-1") (Sample.world ())).1
    = Ok Sample.alice ∧
  (get_current_user Demo.toy_decode (Some "token-0") Demo.world_with_zero).1
    = Raise (HTTPException 401 "Invalid token payload").
Proof.
  split.
  - apply (proj1 (get_current_user_with_integer_id Demo.toy_decode "token-1"
                    {[ "user_id" := JNum 1 ]} 1 (Sample.world ()) eq_refl eq_refl)).
    repeat split; try reflexivity; discriminate.
  - apply (proj1 (proj2 (get_current_user_with_integer_id Demo.toy_decode "token-0"
                    {[ "user_id" := JNum 0 ]} 0 Demo.world_with_zero eq_refl eq_refl))).
    + discriminate.
    + reflexivity.
Defined.

Lemma dev_environment (environ : gmap string string) :
  development_opt_in environ →
  lower (getenv environ "ENVIRONMENT" "production") = "development".
Proof. intros (v & Hv & Hlow). unfold getenv. by rewrite Hv. Qed.

(** X14.  With ENVIRONMENT=development (in any letter case) the cookie is
    not looked at.  If user 1 exists it is returned and nothing changes.
    Otherwise a user "dev@local.test" is inserted under the next user id
    and returned -- unless that email is already taken, in which case the
    request fails on the unique constraint and the database is unchanged.
    After such an insertion the next request gets the same user only if it
    received id 1; with any other id the next request fails on the unique
    constraint. *)
Theorem dev_bypass_in_development {PS} (decode_jwt : string → option dict)
    (hash_password : string → string) (environ : gmap string string)
    (access_token : option string) (w : World PS) :
  development_opt_in environ →
  let run := get_dev_or_current_user decode_jwt hash_password environ access_token in
  let dev := mkUser (user_seq (db w)) "dev@local.test" (hash_password "dev123")
                    (clock w) in
  match users (db w) !! 1 with
  | Some user => run w = (Ok user, w)
  | None =>
      if bool_decide (map_Forall (λ _ u, u_email u ≠ "dev@local.test") (users (db w)))
      then (run w).1 = Ok dev ∧
           users (db (run w).2) = <[user_seq (db w) := dev]> (users (db w)) ∧
           tasks (db (run w).2) = tasks (db w) ∧
           (∀ other_token,
              (get_dev_or_current_user decode_jwt hash_password environ other_token
                 (run w).2).1
              = if bool_decide (user_seq (db w) = 1) then Ok dev
                else Raise IntegrityError)
      else (run w).1 = Raise IntegrityError ∧ db (run w).2 = db w
  end.
Proof.
  intros Hdev. cbv zeta. pose proof (dev_environment environ Hdev) as Henv.
  unfold get_dev_or_current_user. rewrite Henv.
  rewrite (bool_decide_eq_true_2 ("development" = "development")) by done.
  unfold_run. unfold session_commit_new_user.
  cbn [fst snd db clock pub_state sent log].
  destruct (users (db w) !! 1) as [user|] eqn:Hone; [done|].
  cbn [u_email u_id fst snd db clock pub_state sent log users user_seq tasks].
  case_bool_decide as Hfree; cbn [fst snd db users tasks user_seq]; [|done].
  split; [done|]. split; [done|]. split; [done|].
  intros _.
  case_bool_decide as Hseq.
  - rewrite Hseq, lookup_insert_eq. done.
  - rewrite lookup_insert_ne, Hone by done.
    cbn [u_email u_id fst snd db clock pub_state sent log users user_seq tasks].
    rewrite bool_decide_eq_false_2; [done|].
    intros Hall. by apply (Hall (user_seq (db w)) _ (lookup_insert_eq _ _ _)).
Qed.

Lemma dev_bypass_in_development_witness :
  let run := get_dev_or_current_user (λ _, None) (λ p, p)
               {[ "ENVIRONMENT" := "Development" ]} (Some "garbage") in
  run (Sample.world ()) = (Ok Sample.alice, Sample.world ()).
Proof.
  apply (dev_bypass_in_development (λ _, None) (λ p, p)
           {[ "ENVIRONMENT" := "Development" ]} (Some "garbage") (Sample.world ())).
  exists "Development". split; reflexivity.
Defined.

(** In an empty database whose user counter stands at 5, the development
    user gets id 5, and the second request fails. *)
Example dev_bypass_second_request_fails :
  let run := get_dev_or_current_user (λ _, None) (λ p, p)
               {[ "ENVIRONMENT" := "development" ]} None in
  (run Demo.empty_world).1 = Ok (mkUser 5 "dev@local.test" "dev123" 100) ∧
  (run (run Demo.empty_world).2).1 = Raise IntegrityError.
Proof. split; vm_compute; reflexivity. Qed.

(** ** Accounts *)

Ltac unfold_accounts :=
  unfold register, login, create_jwt, try_except_integrity, session_commit_new_user,
    session_first_user_by_email, hash_password_salted, verify_password,
    utcnow, raise, mbind, mret, M_bind, M_ret.

Lemma register_run {PS} (pwd_hash : string → string → string)
    (jwt_encode : dict → string) (expire_hours : Z)
    (user_data : UserRegister) (salt : string) (response : list CookieOp)
    (w : World PS) :
  let email := lower (reg_email user_data) in
  let user := mkUser (user_seq (db w)) email (pwd_hash salt (reg_password user_data))
                     (clock w) in
  let r := register pwd_hash jwt_encode expire_hours user_data salt response w in
  if bool_decide (map_Forall (λ _ u, u_email u ≠ email) (users (db w))) then
    r.1 = Ok (user, response ++ [access_cookie jwt_encode expire_hours
                                   (user_seq (db w)) (clock w + 1)]) ∧
    db r.2 = mkDb (tasks (db w)) (<[user_seq (db w) := user]> (users (db w)))
                  (task_seq (db w)) (user_seq (db w) + 1)
  else
    r.1 = Raise (HTTPException 409 "Email already registered") ∧ db r.2 = db w.
Proof.
  cbv zeta. unfold_accounts.
  cbn [fst snd db clock pub_state sent log u_email u_id users user_seq].
  case_bool_decide; cbn [fst snd db clock pub_state sent log u_id]; done.
Qed.

Lemma map_Forall_no_email (users : gmap Z User) (email : string) :
  map_Forall (λ _ u, u_email u ≠ email) users ↔
  ¬ ∃ k u, users !! k = Some u ∧ u_email u = email.
Proof.
  split.
  - intros Hall (k & u & Hget & Heq). by apply (Hall k u Hget).
  - intros Hno k u Hget Heq. apply Hno. by exists k, u.
Qed.

(** X15.  [register] answers 409 "Email already registered" exactly when a
    stored user already has the submitted email in lowercase; the database
    is then unchanged and no cookie is set.  Whatever the outcome, a
    following registration of the same address, in any letter case, is
    refused: two addresses that differ only in case cannot both be
    registered. *)
Theorem register_refuses_a_taken_email {PS} (pwd_hash : string → string → string)
    (jwt_encode : dict → string) (expire_hours : Z)
    (user_data : UserRegister) (salt : string) (response : list CookieOp)
    (w : World PS) :
  let r := register pwd_hash jwt_encode expire_hours user_data salt response w in
  ((∃ k u, users (db w) !! k = Some u ∧ u_email u = lower (reg_email user_data)) ↔
   r.1 = Raise (HTTPException 409 "Email already registered")) ∧
  (r.1 = Raise (HTTPException 409 "Email already registered") → db r.2 = db w) ∧
  (∀ again salt' response',
     lower (reg_email again) = lower (reg_email user_data) →
     (register pwd_hash jwt_encode expire_hours again salt' response' r.2).1
       = Raise (HTTPException 409 "Email already registered")).
Proof.
  cbv zeta.
  pose proof (register_run pwd_hash jwt_encode expire_hours user_data salt response w)
    as Hrun.
  cbv zeta in Hrun.
  case_bool_decide as Hfree; destruct Hrun as [Hr Hdb]; rewrite Hr.
  - apply map_Forall_no_email in Hfree. split; [|split].
    + split; [done|discriminate].
    + discriminate.
    + intros again salt' response' Hsame.
      pose proof (register_run pwd_hash jwt_encode expire_hours again salt' response'
                    (register pwd_hash jwt_encode expire_hours user_data salt
                       response w).2) as Hrun2.
      cbv zeta in Hrun2. rewrite Hdb in Hrun2. cbn [users user_seq] in Hrun2.
      rewrite bool_decide_eq_false_2 in Hrun2; [by destruct Hrun2|].
      intros Hall. apply (Hall (user_seq (db w)) _ (lookup_insert_eq _ _ _)).
      by rewrite Hsame.
  - split; [|split].
    + split; [done|]. intros _. apply dec_stable. intros Hno.
      by apply Hfree, map_Forall_no_email.
    + done.
    + intros again salt' response' Hsame.
      pose proof (register_run pwd_hash jwt_encode expire_hours again salt' response'
                    (register pwd_hash jwt_encode expire_hours user_data salt
                       response w).2) as Hrun2.
      cbv zeta in Hrun2. rewrite Hdb in Hrun2.
      rewrite bool_decide_eq_false_2 in Hrun2; [by destruct Hrun2|].
      rewrite Hsame. done.
Qed.

Lemma register_refuses_a_taken_email_witness :
  let r := register Demo.toy_hash Demo.toy_encode 24 Demo.carol "s1" []
             (Sample.world ()) in
  (register Demo.toy_hash Demo.toy_encode 24
     (mkUserRegister "CAROL@example.COM" "another password") "s2" [] r.2).1
  = Raise (HTTPException 409 "Email already registered").
Proof.
  apply (proj2 (proj2 (register_refuses_a_taken_email Demo.toy_hash Demo.toy_encode
                         24 Demo.carol "s1" [] (Sample.world ())))).
  reflexivity.
Defined.

Lemma users_ok_insert (d : Db) (user : User) :
  users_ok d → u_id user = user_seq d →
  (¬ ∃ k u, users d !! k = Some u ∧ u_email u = u_email user) →
  users_ok (mkDb (tasks d) (<[user_seq d := user]> (users d))
                 (task_seq d) (user_seq d + 1)).
Proof.
  intros [Hkey Huniq] Hid Hfree. split; cbn [users user_seq].
  - intros k u.
    destruct (decide (user_seq d = k)) as [<-|Hne].
    + rewrite lookup_insert_eq. intros [= <-]. split; [done|lia].
    + rewrite lookup_insert_ne by done. intros Hget.
      destruct (Hkey _ _ Hget). split; [done|lia].
  - intros k1 k2 u1 u2.
    destruct (decide (user_seq d = k1)) as [<-|Hne1];
      destruct (decide (user_seq d = k2)) as [<-|Hne2];
      rewrite ?lookup_insert_eq, ?lookup_insert_ne by done.
    + done.
    + intros [= <-] Hget Heq. exfalso. apply Hfree. by exists k2, u2.
    + intros Hget [= <-] Heq. exfalso. apply Hfree. by exists k1, u1.
    + apply Huniq.
Qed.

(** X16.  When no stored user has the submitted email in lowercase,
    [register] stores a new user under the next user id, with the email in
    lowercase and the salted hash of the password; it returns that user
    and sets the [access_token] cookie to a token for the new id; all other
    users and all tasks are untouched, and the users table stays well
    formed with pairwise different emails. *)
Theorem register_stores_a_new_user {PS} (pwd_hash : string → string → string)
    (jwt_encode : dict → string) (expire_hours : Z)
    (user_data : UserRegister) (salt : string) (response : list CookieOp)
    (w : World PS) :
  (¬ ∃ k u, users (db w) !! k = Some u ∧ u_email u = lower (reg_email user_data)) →
  let r := register pwd_hash jwt_encode expire_hours user_data salt response w in
  let new_id := user_seq (db w) in
  ∃ user,
    r.1 = Ok (user, response ++ [access_cookie jwt_encode expire_hours new_id
                                   (clock w + 1)]) ∧
    u_id user = new_id ∧ u_email user = lower (reg_email user_data) ∧
    u_hashed_password user = pwd_hash salt (reg_password user_data) ∧
    users (db r.2) !! new_id = Some user ∧
    (∀ k, k ≠ new_id → users (db r.2) !! k = users (db w) !! k) ∧
    tasks (db r.2) = tasks (db w) ∧
    (users_ok (db w) → users_ok (db r.2)).
Proof.
  intros Hfree. cbv zeta.
  pose proof (register_run pwd_hash jwt_encode expire_hours user_data salt response w)
    as Hrun.
  cbv zeta in Hrun.
  rewrite bool_decide_eq_true_2 in Hrun by by apply map_Forall_no_email.
  destruct Hrun as [Hr Hdb]. eexists. split; [exact Hr|]. rewrite Hdb.
  cbn [u_id u_email u_hashed_password users tasks].
  repeat (split; [reflexivity|]).
  split; [apply lookup_insert_eq|].
  split; [intros k Hk; by apply lookup_insert_ne|].
  split; [done|]. intros Hok. by apply users_ok_insert.
Qed.

Lemma register_stores_a_new_user_witness :
  let r := register Demo.toy_hash Demo.toy_encode 24 Demo.carol "s1" []
             (Sample.world ()) in
  ∃ user,
    r.1 = Ok (user, [] ++ [access_cookie Demo.toy_encode 24 3 (100 + 1)]) ∧
    u_id user = 3 ∧ u_email user = lower (reg_email Demo.carol) ∧
    u_hashed_password user = Demo.toy_hash "s1" (reg_password Demo.carol) ∧
    users (db r.2) !! 3 = Some user ∧
    (∀ k, k ≠ 3 → users (db r.2) !! k = users (db (Sample.world ())) !! k) ∧
    tasks (db r.2) = tasks (db (Sample.world ())) ∧
    (users_ok (db (Sample.world ())) → users_ok (db r.2)).
Proof.
  apply (register_stores_a_new_user Demo.toy_hash Demo.toy_encode 24 Demo.carol
           "s1" [] (Sample.world ())).
  intros (k & u & Hget & Heq).
  change (users (db (Sample.world ()))) with
    (<[1 := Sample.alice]> ({[ 2 := Sample.bob ]} : gmap Z User)) in Hget.
  apply lookup_insert_Some in Hget as [[_ <-] | [_ Hget]]; [discriminate Heq|].
  apply lookup_singleton_Some in Hget as [_ <-]. discriminate Heq.
Defined.

Lemma head_filter_Some {A} (P : A → Prop) `{∀ x, Decision (P x)} (l : list A) x :
  head (filter P l) = Some x → P x ∧ x ∈ l.
Proof.
  intros Hhead. apply (list_elem_of_filter P).
  destruct (filter P l) as [|y rest]; [done|].
  injection Hhead as ->. by left.
Qed.

Lemma head_filter_None {A} (P : A → Prop) `{∀ x, Decision (P x)} (l : list A) :
  head (filter P l) = None → ∀ x, x ∈ l → ¬ P x.
Proof.
  intros Hhead x Hin HP.
  assert (x ∈ filter P l) as Hx by by apply list_elem_of_filter.
  destruct (filter P l); [by apply elem_of_nil in Hx|done].
Qed.

Lemma head_filter_unique {A} (P : A → Prop) `{∀ x, Decision (P x)} (l : list A) x :
  x ∈ l → P x → (∀ y, y ∈ l → P y → y = x) → head (filter P l) = Some x.
Proof.
  intros Hin HP Huniq.
  assert (x ∈ filter P l) as Hx by by apply list_elem_of_filter.
  destruct (filter P l) as [|y rest] eqn:E; [by apply elem_of_nil in Hx|].
  assert (y ∈ filter P l) as Hy by (rewrite E; by left).
  apply list_elem_of_filter in Hy as [HPy Hyl]. simpl. f_equal. by apply Huniq.
Qed.

Lemma stored_user (users : gmap Z User) (u : User) :
  u ∈ (map_to_list users).*2 ↔ ∃ k, users !! k = Some u.
Proof.
  rewrite list_elem_of_fmap. split.
  - intros [[k u'] [-> Hin]]. exists k. by apply elem_of_map_to_list.
  - intros [k Hget]. exists (k, u). split; [done|]. by apply elem_of_map_to_list.
Qed.

(** [login], by cases on the row found and on the password check. *)
Lemma login_run {PS} (pwd_verify : string → string → bool)
    (jwt_encode : dict → string) (expire_hours : Z)
    (credentials : UserLogin) (response : list CookieOp) (w : World PS) :
  let r := login pwd_verify jwt_encode expire_hours credentials response w in
  db r.2 = db w ∧
  match head (filter (λ u, u_email u = lower (login_email credentials))
                     (map_to_list (users (db w))).*2) with
  | Some user =>
      if pwd_verify (login_password credentials) (u_hashed_password user)
      then r.1 = Ok (user, response ++ [access_cookie jwt_encode expire_hours
                                          (u_id user) (clock w)])
      else r.1 = Raise (HTTPException 401 "Invalid credentials")
  | None => r.1 = Raise (HTTPException 401 "Invalid credentials")
  end.
Proof.
  cbv zeta. unfold_accounts. cbn [fst snd db].
  destruct (head _) as [user|]; [|done].
  destruct (pwd_verify _ _); done.
Qed.

Lemma login_accepts {PS} (pwd_verify : string → string → bool)
    (jwt_encode : dict → string) (expire_hours : Z)
    (credentials : UserLogin) (response : list CookieOp) (w : World PS) k user :
  users_ok (db w) → users (db w) !! k = Some user →
  u_email user = lower (login_email credentials) →
  pwd_verify (login_password credentials) (u_hashed_password user) = true →
  (login pwd_verify jwt_encode expire_hours credentials response w).1
  = Ok (user, response ++ [access_cookie jwt_encode expire_hours (u_id user) (clock w)]).
Proof.
  intros [_ Huniq] Hget Hmail Hver.
  destruct (login_run pwd_verify jwt_encode expire_hours credentials response w)
    as [_ Hrun].
  rewrite (head_filter_unique _ _ user) in Hrun.
  - by rewrite Hver in Hrun.
  - apply stored_user. by exists k.
  - done.
  - intros other [k' Hget']%stored_user Hmail'.
    assert (k' = k) as -> by (apply (Huniq k' k other user); congruence).
    congruence.
Qed.

(** X17.  [login] never changes the database.  When it succeeds, the user
    it returns is a stored user whose email is the submitted one in
    lowercase and whose stored hash verifies the submitted password, and
    the cookie carries a token for that user's id.  When it fails, the
    answer is 401 "Invalid credentials", the same for an unknown email and
    for a wrong password.  With pairwise different emails it succeeds for
    every stored user whose email and password match. *)
Theorem login_checks_email_and_password {PS} (pwd_verify : string → string → bool)
    (jwt_encode : dict → string) (expire_hours : Z)
    (credentials : UserLogin) (response : list CookieOp) (w : World PS) :
  let r := login pwd_verify jwt_encode expire_hours credentials response w in
  db r.2 = db w ∧
  (∀ user cookies,
     r.1 = Ok (user, cookies) →
     (∃ k, users (db w) !! k = Some user) ∧
     u_email user = lower (login_email credentials) ∧
     pwd_verify (login_password credentials) (u_hashed_password user) = true ∧
     cookies = response ++ [access_cookie jwt_encode expire_hours (u_id user)
                              (clock w)]) ∧
  ((∃ result, r.1 = Ok result) ∨
   r.1 = Raise (HTTPException 401 "Invalid credentials")) ∧
  ((∀ k u, users (db w) !! k = Some u →
           u_email u ≠ lower (login_email credentials) ∨
           pwd_verify (login_password credentials) (u_hashed_password u) = false) →
   r.1 = Raise (HTTPException 401 "Invalid credentials")) ∧
  (users_ok (db w) →
   ∀ k user, users (db w) !! k = Some user →
     u_email user = lower (login_email credentials) →
     pwd_verify (login_password credentials) (u_hashed_password user) = true →
     r.1 = Ok (user, response ++ [access_cookie jwt_encode expire_hours (u_id user)
                                    (clock w)])).
Proof.
  cbv zeta.
  destruct (login_run pwd_verify jwt_encode expire_hours credentials response w)
    as [Hdb Hrun].
  split; [exact Hdb|].
  destruct (head _) as [found|] eqn:Hhead.
  - apply head_filter_Some in Hhead as [Hmail Hstored].
    apply stored_user in Hstored as [kf Hf].
    destruct (pwd_verify _ (u_hashed_password found)) eqn:Hver; rewrite Hrun.
    + split; [by intros user cookies [= <- <-]; eauto|].
      split; [by left; eexists|]. split.
      * intros Hnone. destruct (Hnone _ _ Hf) as [?|?]; congruence.
      * intros [_ Huniq] k user Hget Hmail' _.
        assert (kf = k) as <- by (apply (Huniq kf k found user); congruence).
        by replace user with found by congruence.
    + split; [discriminate|]. split; [by right|]. split; [done|].
      intros [_ Huniq] k user Hget Hmail' Hver'.
      assert (kf = k) as <- by (apply (Huniq kf k found user); congruence).
      congruence.
  - rewrite Hrun. split; [discriminate|]. split; [by right|]. split; [done|].
    intros _ k user Hget Hmail' _. exfalso.
    apply (head_filter_None _ _ Hhead user); [|done].
    apply stored_user. by exists k.
Qed.

Lemma sample_users_ok : users_ok Sample.store.
Proof.
  assert (∀ k u, users Sample.store !! k = Some u →
                 (k = 1 ∧ u = Sample.alice) ∨ (k = 2 ∧ u = Sample.bob)) as Hcases.
  { intros k u Hget. unfold Sample.store in Hget. cbn [users] in Hget.
    apply lookup_insert_Some in Hget as [[<- <-] | [_ Hget]]; [by left|].
    apply lookup_singleton_Some in Hget as [<- <-]. by right. }
  split.
  - intros k u Hget. destruct (Hcases k u Hget) as [[-> ->] | [-> ->]];
      split; reflexivity.
  - intros k1 k2 u1 u2 H1 H2.
    destruct (Hcases _ _ H1) as [[-> ->] | [-> ->]],
             (Hcases _ _ H2) as [[-> ->] | [-> ->]];
      first [ reflexivity | discriminate ].
Defined.

Lemma login_checks_email_and_password_witness :
  (login (λ password hashed, String.eqb password "hunter2") Demo.toy_encode 24
     (mkUserLogin "ALICE@example.com" "hunter2") [] (Sample.world ())).1
  = Ok (Sample.alice, [] ++ [access_cookie Demo.toy_encode 24 1 100]).
Proof.
  apply (proj2 (proj2 (proj2 (proj2
           (login_checks_email_and_password
              (λ password hashed, String.eqb password "hunter2") Demo.toy_encode 24
              (mkUserLogin "ALICE@example.com" "hunter2") [] (Sample.world ())))))
           sample_users_ok 1 Sample.alice).
  - reflexivity.
  - reflexivity.
  - reflexivity.
Defined.

(** X18.  Registering and then logging in works: after a successful
    registration into a well-formed users table, a login with the same
    password and the same email in any letter case returns the registered
    user and sets a cookie for its id -- provided the password library
    verifies a password against its own hash. *)
Theorem register_then_login {PS} (pwd_hash : string → string → string)
    (pwd_verify : string → string → bool) (jwt_encode : dict → string)
    (expire_hours : Z) (user_data : UserRegister) (salt : string)
    (credentials : UserLogin) (response response' : list CookieOp) (w : World PS) :
  users_ok (db w) →
  (¬ ∃ k u, users (db w) !! k = Some u ∧ u_email u = lower (reg_email user_data)) →
  lower (login_email credentials) = lower (reg_email user_data) →
  login_password credentials = reg_password user_data →
  pwd_verify (reg_password user_data) (pwd_hash salt (reg_password user_data)) = true →
  let r := register pwd_hash jwt_encode expire_hours user_data salt response w in
  ∃ user cookies,
    r.1 = Ok (user, cookies) ∧
    (login pwd_verify jwt_encode expire_hours credentials response' r.2).1
    = Ok (user, response' ++ [access_cookie jwt_encode expire_hours (u_id user)
                                (clock r.2)]).
Proof.
  intros Hok Hfree Hmail Hpw Hver. cbv zeta.
  pose proof (register_run pwd_hash jwt_encode expire_hours user_data salt response w)
    as Hrun.
  cbv zeta in Hrun.
  rewrite bool_decide_eq_true_2 in Hrun by by apply map_Forall_no_email.
  destruct Hrun as [Hr Hdb]. do 2 eexists. split; [exact Hr|].
  apply (login_accepts _ _ _ _ _ _ (user_seq (db w))).
  - rewrite Hdb. by apply users_ok_insert.
  - rewrite Hdb. apply lookup_insert_eq.
  - by rewrite Hmail.
  - cbn [u_hashed_password]. by rewrite Hpw.
Qed.

Lemma register_then_login_witness :
  let r := register Demo.toy_hash Demo.toy_encode 24 Demo.carol "s1" []
             (Sample.world ()) in
  ∃ user cookies,
    r.1 = Ok (user, cookies) ∧
    (login Demo.toy_verify Demo.toy_encode 24
       (mkUserLogin "CAROL@EXAMPLE.COM" "correct horse") [] r.2).1
    = Ok (user, [] ++ [access_cookie Demo.toy_encode 24 (u_id user) (clock r.2)]).
Proof.
  apply (register_then_login Demo.toy_hash Demo.toy_verify Demo.toy_encode 24
           Demo.carol "s1" (mkUserLogin "CAROL@EXAMPLE.COM" "correct horse") [] []
           (Sample.world ()) sample_users_ok).
  - intros (k & u & Hget & Heq).
    change (users (db (Sample.world ()))) with
      (<[1 := Sample.alice]> ({[ 2 := Sample.bob ]} : gmap Z User)) in Hget.
    apply lookup_insert_Some in Hget as [[_ <-] | [_ Hget]]; [discriminate Heq|].
    apply lookup_singleton_Some in Hget as [_ <-]. discriminate Heq.
  - reflexivity.
  - reflexivity.
  - reflexivity.
Defined.

Lemma get_current_user_accepts {PS} (decode_jwt : string → option dict)
    (token : string) (payload : dict) (n : Z) (user : User) (w : World PS) :
  token ≠ "" → decode_jwt token = Some payload →
  payload !! "user_id" = Some (JNum n) → n ≠ 0 → users (db w) !! n = Some user →
  get_current_user decode_jwt (Some token) w = (Ok user, w).
Proof.
  intros Htok Hdec Hid Hn Hu. unfold_run. simpl.
  rewrite (bool_decide_eq_true_2 _ Htok). simpl. rewrite Hdec. simpl.
  rewrite bool_decide_eq_true_2 by (intros ->; by rewrite lookup_empty in Hid).
  simpl. rewrite Hid. simpl. rewrite (bool_decide_eq_true_2 _ Hn). simpl.
  by rewrite Hu.
Qed.

(** X19.  The cookie that [login] sets authenticates the user that [login]
    returned: in a well-formed users table, if the token is non-empty and
    decodes to a payload carrying the id it was issued for, and that id is
    not 0, then [get_current_user] on the world left by [login] answers
    with the very same user. *)
Theorem login_cookie_authenticates {PS} (pwd_verify : string → string → bool)
    (jwt_encode : dict → string) (decode_jwt : string → option dict)
    (expire_hours : Z) (credentials : UserLogin) (response : list CookieOp)
    (w : World PS) (user : User) (cookies : list CookieOp) (payload : dict) :
  users_ok (db w) →
  let r := login pwd_verify jwt_encode expire_hours credentials response w in
  let token := jwt_encode {[ "user_id" := JNum (u_id user);
                             "exp" := JNum (clock w + hours expire_hours) ]} in
  r.1 = Ok (user, cookies) →
  token ≠ "" → decode_jwt token = Some payload →
  payload !! "user_id" = Some (JNum (u_id user)) → u_id user ≠ 0 →
  cookies = response ++ [SetCookie "access_token" token true "lax" 86400 "/"] ∧
  get_current_user decode_jwt (Some token) r.2 = (Ok user, r.2).
Proof.
  intros [Hkey _] r token Hr Htok Hdec Hid Hn. subst r token.
  destruct (login_run pwd_verify jwt_encode expire_hours credentials response w)
    as [Hdb Hrun].
  destruct (head _) as [found|] eqn:Hhead; [|by rewrite Hrun in Hr].
  destruct (pwd_verify _ _); rewrite Hrun in Hr; [|discriminate Hr].
  injection Hr as -> <-. split; [reflexivity|].
  apply head_filter_Some in Hhead as [_ [k Hget]%stored_user].
  destruct (Hkey _ _ Hget) as [Hk _].
  apply (get_current_user_accepts _ _ payload (u_id user)); try done.
  rewrite Hdb, Hk. exact Hget.
Qed.

Lemma login_cookie_authenticates_witness :
  let r := login (λ password hashed, String.eqb password "hunter2") Demo.toy_encode 24
             (mkUserLogin "alice@example.com" "hunter2") [] (Sample.world ()) in
  [SetCookie "access_token" "token-1" true "lax" 86400 "/"]
    = [] ++ [SetCookie "access_token" "token-1" true "lax" 86400 "/"] ∧
  get_current_user Demo.toy_decode (Some "token-1") r.2 = (Ok Sample.alice, r.2).
Proof.
  apply (login_cookie_authenticates (λ password hashed, String.eqb password "hunter2")
           Demo.toy_encode Demo.toy_decode 24
           (mkUserLogin "alice@example.com" "hunter2") [] (Sample.world ())
           Sample.alice [SetCookie "access_token" "token-1" true "lax" 86400 "/"]
           {[ "user_id" := JNum 1 ]} sample_users_ok).
  - vm_compute. reflexivity.
  - discriminate.
  - reflexivity.
  - reflexivity.
  - discriminate.
Defined.

